(** * Clinical Trials Dashboard: manifest generator and static server

    A shallow embedding of [generate_manifest.py] and [server.py].

    Both scripts act on the process's working directory, print to standard
    output and (for the server) on the network.  The embedding threads a
    [world] through a small monad with exceptions: the part of the file
    system the scripts look at, the clock, standard output and a log of the
    system calls that change something outside the process. *)

From Stdlib Require Import Ascii.
From stdpp Require Import base list sorting strings pretty.

(** ** Characters and text *)

Definition LF : string := String (ascii_of_nat 10) "".
Definition CRLF : string := String (ascii_of_nat 13) LF.

Definition DQUOTE : string := String (ascii_of_nat 34) "".

(** [b"".join(chunks)], and [file.write] of one chunk after the other. *)
Definition concat_chunks (chunks : list string) : string :=
  foldr String.app "" chunks.

(** [f"{i:2d}"]: decimal, right-aligned in a field of width two. *)
Definition fmt_2d (i : nat) : string :=
  if decide (i < 10) then " " +:+ pretty i else pretty i.

(** ** Shell-style matching of a name against a pattern

    [Path.glob] matches every entry name of the directory against the
    pattern with [fnmatch] (case-sensitively, on a POSIX system; entries
    whose name starts with a dot are matched like any other).  The pattern
    language modelled is the one the scripts use: [*], [?] and literal
    characters. *)

Fixpoint fnmatch_star (rest : string → bool) (name : string) : bool :=
  rest name ||
  match name with
  | "" => false
  | String _ name' => fnmatch_star rest name'
  end.

Fixpoint fnmatchcase (pat name : string) {struct pat} : bool :=
  match pat with
  | "" => match name with "" => true | _ => false end
  | String c pat' =>
      if Ascii.eqb c "*" then fnmatch_star (fnmatchcase pat') name
      else match name with
           | "" => false
           | String d name' =>
               (Ascii.eqb c "?" || Ascii.eqb c d) && fnmatchcase pat' name'
           end
  end.

(** A pattern without wildcards. *)
Fixpoint literal (pat : string) : bool :=
  match pat with
  | "" => true
  | String c pat' => negb (Ascii.eqb c "*") && negb (Ascii.eqb c "?") && literal pat'
  end.

(** [str.endswith], as a proposition. *)
Definition endswith (s suffix : string) : Prop := ∃ p, s = p +:+ suffix.

(** ** Exceptions *)

Inductive exn_class :=
| BaseException | Exception | KeyboardInterrupt
| ValueError | JSONDecodeError
| UnicodeError | UnicodeDecodeError | UnicodeEncodeError
| RuntimeError | RecursionError
| OSError | PermissionError | IsADirectoryError | FileExistsError
| FileNotFoundError
| BrowserError.

Global Instance exn_class_eq_dec : EqDecision exn_class.
Proof. solve_decision. Defined.

(** The direct base class of each exception class. *)
Definition base_class (c : exn_class) : option exn_class :=
  match c with
  | BaseException => None
  | Exception | KeyboardInterrupt => Some BaseException
  | ValueError | RuntimeError | OSError | BrowserError => Some Exception
  | RecursionError => Some RuntimeError
  | JSONDecodeError | UnicodeError => Some ValueError
  | UnicodeDecodeError | UnicodeEncodeError => Some UnicodeError
  | PermissionError | IsADirectoryError | FileExistsError
  | FileNotFoundError => Some OSError
  end.

Fixpoint issubclass_upto (n : nat) (c d : exn_class) : bool :=
  bool_decide (c = d) ||
  match n, base_class c with
  | S n', Some b => issubclass_upto n' b d
  | _, _ => false
  end.

(** The hierarchy above has depth four. *)
Definition issubclass : exn_class → exn_class → bool := issubclass_upto 4.

(** An exception object: its class and [str(e)]. *)
Record exn := Exn { exn_class_of : exn_class; exn_str : string }.

Definition isinstance (e : exn) (c : exn_class) : bool :=
  issubclass (exn_class_of e) c.

(** ** The file system the scripts see *)

(** An entry of [data/]: a regular file with its permission bits for this
    process and its text, or a subdirectory. *)
Inductive node :=
| RegularFile (readable writable : bool) (content : string)
| Directory.

(** A directory lists its entries in the order the operating system
    enumerates them, which nothing in the scripts controls. *)
Record dir := Dir { dir_writable : bool; entries : list (string * node) }.

(** What the relative path [data] names in the working directory. *)
Inductive path_state :=
| Absent
| NotADirectory
| IsDir (d : dir).

(** System calls with an effect outside the process. *)
Inductive event :=
| EvMkdir (path : string)
| EvOpenWrite (path : string)
| EvBind (port : N)
| EvClose (port : N)
| EvBrowser (url : string).

Global Instance event_eq_dec : EqDecision event.
Proof. solve_decision. Defined.

Record world := World {
  cwd : string;              (* os.getcwd() *)
  cwd_writable : bool;
  index_html : bool;         (* Path('index.html').exists() *)
  data : path_state;         (* what ./data is *)
  clock : string;            (* datetime.now().isoformat() *)
  port_in_use : bool;        (* another socket already listens on PORT *)
  browser_available : bool;  (* webbrowser.open finds something to launch *)
  ctrl_c : bool;             (* the user interrupts the accept loop *)
  stdout : list string;      (* one element per print call, oldest first *)
  log : list event           (* oldest first *)
}.

Definition set_data (p : path_state) (w : world) : world :=
  World (cwd w) (cwd_writable w) (index_html w) p (clock w) (port_in_use w)
        (browser_available w) (ctrl_c w) (stdout w) (log w).

Definition add_stdout (s : string) (w : world) : world :=
  World (cwd w) (cwd_writable w) (index_html w) (data w) (clock w)
        (port_in_use w) (browser_available w) (ctrl_c w) (stdout w ++ [s])
        (log w).

Definition add_log (e : event) (w : world) : world :=
  World (cwd w) (cwd_writable w) (index_html w) (data w) (clock w)
        (port_in_use w) (browser_available w) (ctrl_c w) (stdout w)
        (log w ++ [e]).

(** ** Computations: state, exceptions, and the accept loop that never ends *)

Inductive outcome (A : Type) :=
| Returned (a : A)
| Raised (e : exn)
| RunsForever.
Arguments Returned {A} a.
Arguments Raised {A} e.
Arguments RunsForever {A}.

Definition M (A : Type) : Type := world → outcome A * world.

Global Instance M_ret : MRet M := λ A a w, (Returned a, w).

Global Instance M_bind : MBind M := λ A B k m w,
  match m w with
  | (Returned a, w') => k a w'
  | (Raised e, w') => (Raised e, w')
  | (RunsForever, w') => (RunsForever, w')
  end.

Definition raise {A} (e : exn) : M A := λ w, (Raised e, w).

Definition gets {A} (f : world → A) : M A := λ w, (Returned (f w), w).

Definition modify (f : world → world) : M unit := λ w, (Returned tt, f w).

(** [try: body except ...: handler]: [handler e] is [None] when no
    [except] clause matches [e], which then propagates. *)
Definition try_except {A} (body : M A) (handler : exn → option (M A)) : M A :=
  λ w, match body w with
       | (Raised e, w') =>
           match handler e with
           | Some h => h w'
           | None => (Raised e, w')
           end
       | r => r
       end.

(** [with ctx as x: body], for a context manager whose [__exit__] runs
    [exit] and does not suppress exceptions. *)
Definition with_exit {A} (exit : M unit) (body : M A) : M A :=
  λ w, match body w with
       | (Returned a, w') => (exit ;; mret a) w'
       | (Raised e, w') => (exit ;; raise e) w'
       | (RunsForever, w') => (RunsForever, w')
       end.

(** [for x in xs: acc = body x acc], with the loop-carried variables in
    [acc]. *)
Fixpoint for_each {A S} (xs : list A) (body : A → S → M S) (acc : S) : M S :=
  match xs with
  | [] => mret acc
  | x :: xs' => acc' ← body x acc; for_each xs' body acc'
  end.

Definition print (s : string) : M unit := modify (add_stdout s).

(** Printing a list of lines. *)
Definition add_stdouts (ls : list string) (w : world) : world :=
  foldl (λ w l, add_stdout l w) w ls.

(** ** pathlib *)

Definition data_dir : string := "data".

(** [str(data_dir / name)] *)
Definition joinpath (d name : string) : string := d +:+ "/" +:+ name.

(** [Path.absolute()] of a relative path. *)
Definition absolute (w : world) (p : string) : string :=
  if decide (cwd w = "/") then "/" +:+ p else joinpath (cwd w) p.

(** [data_dir.glob(pat)]: the entries whose name matches, in enumeration
    order; nothing when [data] is not a directory. *)
Definition glob (pat : string) (p : path_state) : list (string * node) :=
  match p with
  | IsDir d => filter (λ e, fnmatchcase pat e.1) (entries d)
  | _ => []
  end.

(** [Path('data').mkdir(exist_ok=True)] *)
Definition mkdir_exist_ok : M unit :=
  p ← gets data;
  match p with
  | IsDir _ => mret tt
  | NotADirectory =>
      raise (Exn FileExistsError ("[Errno 17] File exists: '" +:+ data_dir +:+ "'"))
  | Absent =>
      ok ← gets cwd_writable;
      if ok : bool then
        modify (add_log (EvMkdir data_dir)) ;;
        modify (set_data (IsDir (Dir true [])))
      else
        raise (Exn PermissionError
                 ("[Errno 13] Permission denied: '" +:+ data_dir +:+ "'"))
  end.

Fixpoint lookup_entry (name : string) (es : list (string * node)) : option node :=
  match es with
  | [] => None
  | (n, x) :: es' => if decide (n = name) then Some x else lookup_entry name es'
  end.

Fixpoint replace_entry (name : string) (x : node) (es : list (string * node))
  : list (string * node) :=
  match es with
  | [] => []
  | (n, y) :: es' =>
      if decide (n = name) then (n, x) :: es' else (n, y) :: replace_entry name x es'
  end.

Definition errno_message (errno what path : string) : string :=
  "[Errno " +:+ errno +:+ "] " +:+ what +:+ ": '" +:+ path +:+ "'".

(** [open(path, 'r', encoding='utf-8')] on an entry of [data/], giving the
    text that [f.read()] will deliver. *)
Definition open_read (path : string) (x : node) : M string :=
  match x with
  | Directory =>
      raise (Exn IsADirectoryError (errno_message "21" "Is a directory" path))
  | RegularFile r _ text =>
      if r then mret text
      else raise (Exn PermissionError (errno_message "13" "Permission denied" path))
  end.

(** [open(data_dir / name, 'w', encoding='utf-8')], the writes that leave
    [text] in the file, and the close: an existing regular file is
    truncated and rewritten in place, a missing one is created. *)
Definition open_write (name text : string) : M unit :=
  let path := joinpath data_dir name in
  p ← gets data;
  match p with
  | IsDir d =>
      match lookup_entry name (entries d) with
      | Some Directory =>
          raise (Exn IsADirectoryError (errno_message "21" "Is a directory" path))
      | Some (RegularFile r wr _) =>
          if wr then
            modify (add_log (EvOpenWrite path));;
            modify (set_data (IsDir (Dir (dir_writable d)
              (replace_entry name (RegularFile r wr text) (entries d)))))
          else
            raise (Exn PermissionError (errno_message "13" "Permission denied" path))
      | None =>
          if dir_writable d then
            modify (add_log (EvOpenWrite path));;
            modify (set_data (IsDir (Dir (dir_writable d)
              (entries d ++ [(name, RegularFile true true text)]))))
          else
            raise (Exn PermissionError (errno_message "13" "Permission denied" path))
      end
  | _ =>
      raise (Exn FileNotFoundError
               (errno_message "2" "No such file or directory" path))
  end.

(** ** generate_manifest.py *)

Record manifest := Manifest {
  files : list string;
  total_files : nat;
  generated_at : string;
  note : string
}.

(** What [json.load] makes of a text that could be opened: nothing to
    report, or one of the exceptions it raises. *)
Inductive load_error :=
| Malformed (msg : string)      (* json.JSONDecodeError *)
| Undecodable (msg : string)    (* UnicodeDecodeError: not UTF-8 *)
| TooDeep (msg : string).       (* RecursionError *)

Definition exn_of_load_error (err : load_error) : exn :=
  match err with
  | Malformed msg => Exn JSONDecodeError msg
  | Undecodable msg => Exn UnicodeDecodeError msg
  | TooDeep msg => Exn RecursionError msg
  end.

(** The qualifying entries of [data/]:
    [[f for f in data_dir.glob("*.json") if f.name != "manifest.json"]] *)
Definition qualifying (p : path_state) : list (string * node) :=
  filter (λ e, e.1 ≠ "manifest.json") (glob "*.json" p).

(** [s * n] on a string. *)
Fixpoint str_repeat (s : string) (n : nat) : string :=
  match n with
  | 0 => ""
  | S n' => s +:+ str_repeat s n'
  end.

(** [enumerate(xs, 1)] *)
Definition enumerate_from_1 {A} (xs : list A) : list (nat * A) :=
  zip (seq 1 (length xs)) xs.

(** ** Text that goes through the strict UTF-8 encoder of a file

    A string of the embedding holds the bytes of a name as they are on
    disk.  Where these bytes are not UTF-8, Python keeps them in the [str]
    as lone surrogates, and a file opened with [encoding='utf-8'] refuses
    to write them.  So a chunk can be written exactly when its bytes are
    well-formed UTF-8 (no overlong form, no surrogate, nothing above
    U+10FFFF). *)

Inductive utf8_state :=
| Utf8Start
| Utf8Expect (more lo hi : nat).  (* next byte in lo..hi, then [more] bytes 80..BF *)

Definition utf8_step (st : utf8_state) (b : nat) : option utf8_state :=
  match st with
  | Utf8Start =>
      if bool_decide (b < 128) then Some Utf8Start
      else if bool_decide (194 ≤ b ≤ 223) then Some (Utf8Expect 0 128 191)
      else if bool_decide (b = 224) then Some (Utf8Expect 1 160 191)
      else if bool_decide (225 ≤ b ≤ 236) then Some (Utf8Expect 1 128 191)
      else if bool_decide (b = 237) then Some (Utf8Expect 1 128 159)
      else if bool_decide (238 ≤ b ≤ 239) then Some (Utf8Expect 1 128 191)
      else if bool_decide (b = 240) then Some (Utf8Expect 2 144 191)
      else if bool_decide (241 ≤ b ≤ 243) then Some (Utf8Expect 2 128 191)
      else if bool_decide (b = 244) then Some (Utf8Expect 2 128 143)
      else None
  | Utf8Expect more lo hi =>
      if bool_decide (lo ≤ b ≤ hi) then
        Some (match more with 0 => Utf8Start | S m => Utf8Expect m 128 191 end)
      else None
  end.

Fixpoint valid_utf8_from (st : utf8_state) (s : string) : bool :=
  match s with
  | "" => match st with Utf8Start => true | Utf8Expect _ _ _ => false end
  | String c s' =>
      match utf8_step st (nat_of_ascii c) with
      | Some st' => valid_utf8_from st' s'
      | None => false
      end
  end.

Definition valid_utf8 : string → bool := valid_utf8_from Utf8Start.

(** ** The JSON encoder on a manifest

    [json.dump(manifest, f, indent=2, ensure_ascii=False)] hands the text
    to [f.write] in chunks, as the encoder yields them. *)

Definition hex_digit (n : nat) : string :=
  String (ascii_of_nat (if bool_decide (n < 10) then 48 + n else 87 + n)) "".

(** One character of a string literal: quote, backslash and the control
    characters are escaped, everything else is kept. *)
Definition escape_char (c : ascii) : string :=
  let n := nat_of_ascii c in
  if bool_decide (n = 34) then "\" +:+ DQUOTE
  else if bool_decide (n = 92) then "\\"
  else if bool_decide (n = 8) then "\b"
  else if bool_decide (n = 12) then "\f"
  else if bool_decide (n = 10) then "\n"
  else if bool_decide (n = 13) then "\r"
  else if bool_decide (n = 9) then "\t"
  else if bool_decide (n < 32) then
    "\u00" +:+ hex_digit (n / 16) +:+ hex_digit (n mod 16)
  else String c "".

Fixpoint escape_chars (s : string) : string :=
  match s with
  | "" => ""
  | String c s' => escape_char c +:+ escape_chars s'
  end.

(** [json.encoder.py_encode_basestring] *)
Definition encode_basestring (s : string) : string :=
  DQUOTE +:+ escape_chars s +:+ DQUOTE.

(** The chunks for the elements of a list of strings, one element in
    each, at the second level of indentation. *)
Definition list_item_chunks (xs : list string) : list string :=
  match xs with
  | [] => []
  | x :: xs' =>
      ("[" +:+ LF +:+ "    " +:+ encode_basestring x) ::
      ((λ y, "," +:+ LF +:+ "    " +:+ encode_basestring y) <$> xs')
  end.

Definition list_chunks (xs : list string) : list string :=
  match xs with
  | [] => ["[]"]
  | _ :: _ => list_item_chunks xs ++ [LF +:+ "  "; "]"]
  end.

(** The chunks up to the value of ["files"]. *)
Definition manifest_head_chunks : list string :=
  ["{"; LF +:+ "  "; encode_basestring "files"; ": "].

(** The elements of [xs] before the first one that cannot be written. *)
Fixpoint writable_prefix (xs : list string) : list string :=
  match xs with
  | [] => []
  | x :: xs' => if valid_utf8 x then x :: writable_prefix xs' else []
  end.

(** What is in the file once the write of the first name that is not
    UTF-8 has raised: the chunks written before it. *)
Definition dump_fragment (json_files : list string) : string :=
  concat_chunks
    (manifest_head_chunks ++
     take (length (writable_prefix json_files)) (list_item_chunks json_files)).

Section json_library.
(** The [json] module is a library of the language: the parser and the
    serialiser are taken as given. *)
Variable json_load : string → option load_error.
Variable json_dump : manifest → string.  (* indent=2, ensure_ascii=False *)

(** [with open(data_dir / name, 'w', encoding='utf-8') as f:
       json.dump(manifest, f, indent=2, ensure_ascii=False)]:
    the file is opened, and with that emptied, before anything is
    encoded; a name in [files] that is not UTF-8 stops the dump with a
    [UnicodeEncodeError] (its message names the character and the
    position, which are left out here) and the file keeps what had been
    written.  [generated_at] and [note] are ASCII. *)
Definition dump_to_file (name : string) (manifest : manifest) : M unit :=
  if forallb valid_utf8 (files manifest) then
    open_write name (json_dump manifest)
  else
    open_write name (dump_fragment (files manifest));;
    raise (Exn UnicodeEncodeError
             "'utf-8' codec can't encode character: surrogates not allowed").

(** [json.load(f)]; the value parsed is dropped by the caller. *)
Definition json_load_file (text : string) : M unit :=
  match json_load text with
  | None => mret tt
  | Some err => raise (exn_of_load_error err)
  end.

(** The Python function returns [None]; the embedding returns the
    dictionary [manifest] that was dumped, so that the document on disk
    can be spoken about. *)
Definition generate_manifest : M manifest :=
  mkdir_exist_ok;;
  p ← gets data;
  let json_files := merge_sort String.le ((qualifying p).*1) in
  now ← gets clock;
  let manifest :=
    {| files := json_files;
       total_files := length json_files;
       generated_at := now;
       note := "Auto-generated file list for Clinical Trials Dashboard" |} in
  let manifest_path := joinpath data_dir "manifest.json" in
  dump_to_file "manifest.json" manifest;;
  print "📋 Clinical Trials Dashboard - Manifest Generator";;
  print (str_repeat "=" 50);;
  here ← gets (λ w, absolute w data_dir);
  print ("📂 Scanned directory: " +:+ here);;
  print ("✅ Found " +:+ pretty (length json_files) +:+ " JSON files:");;
  for_each (enumerate_from_1 json_files)
    (λ '(i, filename) _, print ("   " +:+ fmt_2d i +:+ ". " +:+ filename)) tt;;
  (if decide (length json_files = 0) then
     print "⚠️  No JSON files found in data/ directory";;
     print "   Please add your JSON files to the data/ folder and run this script again."
   else
     print (LF +:+ "💾 Created: " +:+ manifest_path);;
     print "🚀 You can now start your dashboard server!");;
  mret manifest.

(** The body of the [for] loop of [validate_json_files], with the list
    [invalid_files] as the loop-carried variable. *)
Definition validate_one (json_file : string * node)
    (invalid_files : list (string * string)) : M (list (string * string)) :=
  try_except
    (text ← open_read (joinpath data_dir json_file.1) json_file.2;
     json_load_file text;;
     mret invalid_files)
    (λ e,
       if isinstance e JSONDecodeError then
         Some (mret (invalid_files ++ [(json_file.1, exn_str e)]))
       else if isinstance e Exception then
         Some (mret (invalid_files ++
                 [(json_file.1, "Error reading file: " +:+ exn_str e)]))
       else None).

Definition collect_invalid_files : M (list (string * string)) :=
  p ← gets data;
  for_each (qualifying p) validate_one [].

Definition validate_json_files : M bool :=
  invalid_files ← collect_invalid_files;
  match invalid_files with
  | _ :: _ =>
      print (LF +:+ "❌ Invalid JSON files found:");;
      for_each invalid_files
        (λ '(filename, error) _,
           print ("   - " +:+ filename +:+ ": " +:+ error)) tt;;
      mret false
  | [] =>
      print "✅ All JSON files are valid";;
      mret true
  end.

(** The [if __name__ == "__main__":] block. *)
Definition main : M unit :=
  print "🔍 Validating JSON files...";;
  ok ← validate_json_files;
  if ok : bool then
    print (LF +:+ "📝 Generating manifest...");;
    generate_manifest;;
    print (LF +:+ "🎉 Done! Your dashboard is ready to use.")
  else
    print (LF +:+ "🛑 Please fix the invalid JSON files before continuing.").
(** *** What the specification says about one file

    A qualifying file is fine when it can be read and parses; otherwise
    the report holds one entry for it, the file name with a reason. *)
Definition loads (x : node) : bool :=
  match x with
  | RegularFile true _ text =>
      match json_load text with None => true | Some _ => false end
  | _ => false
  end.

Definition failure_entry (json_file : string * node) : option (string * string) :=
  let path := joinpath data_dir json_file.1 in
  match json_file.2 with
  | Directory =>
      Some (json_file.1,
            "Error reading file: " +:+ errno_message "21" "Is a directory" path)
  | RegularFile false _ _ =>
      Some (json_file.1,
            "Error reading file: " +:+ errno_message "13" "Permission denied" path)
  | RegularFile true _ text =>
      match json_load text with
      | None => None
      | Some (Malformed msg) => Some (json_file.1, msg)
      | Some (Undecodable msg) => Some (json_file.1, "Error reading file: " +:+ msg)
      | Some (TooDeep msg) => Some (json_file.1, "Error reading file: " +:+ msg)
      end
  end.

(** The lines of the report for a non-empty list of failures. *)
Definition failure_report (invalid_files : list (string * string)) : list string :=
  (LF +:+ "❌ Invalid JSON files found:") ::
  ((λ '(filename, error), "   - " +:+ filename +:+ ": " +:+ error) <$> invalid_files).
End json_library.

(** The status the interpreter exits with once the script's top level has
    run: 0 after a normal end, 1 after an uncaught exception (130 for an
    uncaught [KeyboardInterrupt]); none while the process keeps running. *)
Definition exit_status {A} (o : outcome A) : option nat :=
  match o with
  | Returned _ => Some 0
  | Raised e => if isinstance e KeyboardInterrupt then Some 130 else Some 1
  | RunsForever => None
  end.

(** The lines [generate_manifest] prints for the sorted list [json_files],
    with [here] the absolute path of [data/]. *)
Definition generate_report (json_files : list string) (here : string) : list string :=
  ["📋 Clinical Trials Dashboard - Manifest Generator";
   str_repeat "=" 50;
   "📂 Scanned directory: " +:+ here;
   "✅ Found " +:+ pretty (length json_files) +:+ " JSON files:"] ++
  ((λ '(i, filename), "   " +:+ fmt_2d i +:+ ". " +:+ filename)
     <$> enumerate_from_1 json_files) ++
  (if decide (length json_files = 0) then
     ["⚠️  No JSON files found in data/ directory";
      "   Please add your JSON files to the data/ folder and run this script again."]
   else
     [LF +:+ "💾 Created: " +:+ joinpath data_dir "manifest.json";
      "🚀 You can now start your dashboard server!"]).

(** The file system lets [generate_manifest] create [data/] where it is
    missing and write [data/manifest.json]. *)
Definition can_write_manifest (w : world) : bool :=
  match data w with
  | Absent => cwd_writable w
  | NotADirectory => false
  | IsDir d =>
      match lookup_entry "manifest.json" (entries d) with
      | None => dir_writable d
      | Some (RegularFile _ wr _) => wr
      | Some Directory => false
      end
  end.

(** The text of the regular file [data/name], if there is one. *)
Definition read_data_file (name : string) (w : world) : option string :=
  match data w with
  | IsDir d =>
      match lookup_entry name (entries d) with
      | Some (RegularFile _ _ text) => Some text
      | _ => None
      end
  | _ => None
  end.

(** The entries of [data/] in the order of enumeration; none when it is
    not a directory. *)
Definition data_entries (p : path_state) : list (string * node) :=
  match p with
  | IsDir d => entries d
  | _ => []
  end.

(** The names in [data/]; none when it is not a directory. *)
Definition entry_names (p : path_state) : list string :=
  match p with
  | IsDir d => (entries d).*1
  | _ => []
  end.

(** The entry [name] of [data/], if [data/] is a directory that has it. *)
Definition lookup_data (name : string) (p : path_state) : option node :=
  match p with
  | IsDir d => lookup_entry name (entries d)
  | _ => None
  end.

(** A directory holds one entry per name. *)
Definition wf_path (p : path_state) : Prop :=
  match p with
  | IsDir d => NoDup (entries d).*1
  | _ => True
  end.

(** ** server.py *)

Definition PORT : N := 8000.

(** [socketserver.TCPServer(("", port), handler)]: the constructor binds
    the listening socket, or raises when the address is taken. *)
Definition TCPServer_init (port : N) : M unit :=
  busy ← gets port_in_use;
  if busy : bool then
    raise (Exn OSError "[Errno 98] Address already in use")
  else
    modify (add_log (EvBind port)).

(** [TCPServer.__exit__] calls [server_close]. *)
Definition server_close (port : N) : M unit :=
  modify (add_log (EvClose port)).

Definition webbrowser_open (url : string) : M unit :=
  ok ← gets browser_available;
  if ok : bool then modify (add_log (EvBrowser url))
  else raise (Exn BrowserError "could not locate runnable browser").

(** [httpd.serve_forever()] handles requests until the process is
    interrupted; it has no normal return. *)
Definition serve_forever : M unit :=
  stop ← gets ctrl_c;
  if stop : bool then raise (Exn KeyboardInterrupt "")
  else λ w, (RunsForever, w).

Definition start_server : M unit :=
  found ← gets index_html;
  if negb found then
    print "❌ Error: index.html not found in current directory";;
    print "Please run this script from the clinical-trials-dashboard folder"
  else
    mkdir_exist_ok;;
    p ← gets data;
    let json_files := glob "*.json" p in
    match json_files with
    | [] =>
        print "⚠️  Warning: No JSON files found in data/ directory";;
        print "Please add your JSON files to the data/ folder"
    | _ :: _ =>
        print ("✅ Found " +:+ pretty (length json_files) +:+ " JSON files:");;
        for_each json_files (λ f _, print ("   - " +:+ f.1)) tt
    end;;
    TCPServer_init PORT;;
    with_exit (server_close PORT)
      (print (LF +:+ "🚀 Clinical Trials Dashboard Server Started!");;
       here ← gets cwd;
       print ("📂 Serving files from: " +:+ here);;
       print ("🌐 Open your browser to: http://localhost:" +:+ pretty PORT);;
       print ("🔄 Press Ctrl+C to stop the server" +:+ LF);;
       try_except (webbrowser_open ("http://localhost:" +:+ pretty PORT))
         (λ _, Some (mret tt));;
       try_except serve_forever
         (λ e, if isinstance e KeyboardInterrupt
               then Some (print (LF +:+ "👋 Server stopped!"))
               else None)).

(** What [start_server] prints about [data/] when [index.html] is there. *)
Definition server_listing (json_files : list (string * node)) : list string :=
  match json_files with
  | [] =>
      ["⚠️  Warning: No JSON files found in data/ directory";
       "Please add your JSON files to the data/ folder"]
  | _ :: _ =>
      ("✅ Found " +:+ pretty (length json_files) +:+ " JSON files:") ::
      ((λ f, "   - " +:+ f.1) <$> json_files)
  end.

(** What it prints once the listening socket is bound. *)
Definition server_banner (here : string) : list string :=
  [LF +:+ "🚀 Clinical Trials Dashboard Server Started!";
   "📂 Serving files from: " +:+ here;
   "🌐 Open your browser to: http://localhost:" +:+ pretty PORT;
   "🔄 Press Ctrl+C to stop the server" +:+ LF].

(** ** The request handler

    [CustomHTTPRequestHandler] overrides one method of the library class
    [http.server.SimpleHTTPRequestHandler].  The part of the base class that
    builds a response head is written out here after the library: header
    lines are collected in [_headers_buffer] and [end_headers] closes the
    head and writes it out.  Whatever the base class does to answer a
    request is a sequence of calls of these methods on [self], so that
    [end_headers] always is the override. *)
Module Handler.

Inductive wire_write :=
| Head (bytes : string)    (* written by flush_headers *)
| Body (bytes : string).   (* any other self.wfile.write *)

Record handler := Handler {
  request_version : string;
  protocol_version : string;
  headers_buffer : list string;
  close_connection : bool;
  wfile : list wire_write       (* oldest first *)
}.

Definition ascii_lower (c : ascii) : ascii :=
  let n := nat_of_ascii c in
  if bool_decide (65 ≤ n ≤ 90) then ascii_of_nat (n + 32) else c.

Fixpoint lower (s : string) : string :=
  match s with
  | "" => ""
  | String c s' => String (ascii_lower c) (lower s')
  end.

(** [b"".join(chunks)] *)
Definition join (chunks : list string) : string := foldr String.app "" chunks.

Definition buffer_append (line : string) (h : handler) : handler :=
  Handler (request_version h) (protocol_version h) (headers_buffer h ++ [line])
          (close_connection h) (wfile h).

Definition set_close_connection (b : bool) (h : handler) : handler :=
  Handler (request_version h) (protocol_version h) (headers_buffer h) b (wfile h).

Definition wfile_write (x : wire_write) (h : handler) : handler :=
  Handler (request_version h) (protocol_version h) (headers_buffer h)
          (close_connection h) (wfile h ++ [x]).

(** *** BaseHTTPRequestHandler *)

Definition send_response_only (code : nat) (message : string) (h : handler)
  : handler :=
  if decide (request_version h ≠ "HTTP/0.9") then
    buffer_append (protocol_version h +:+ " " +:+ pretty code +:+ " " +:+
                   message +:+ CRLF) h
  else h.

Definition send_header (keyword value : string) (h : handler) : handler :=
  let h1 :=
    if decide (request_version h ≠ "HTTP/0.9") then
      buffer_append (keyword +:+ ": " +:+ value +:+ CRLF) h
    else h in
  if decide (lower keyword = "connection") then
    if decide (lower value = "close") then set_close_connection true h1
    else if decide (lower value = "keep-alive") then set_close_connection false h1
    else h1
  else h1.

Definition flush_headers (h : handler) : handler :=
  Handler (request_version h) (protocol_version h) []
          (close_connection h) (wfile h ++ [Head (join (headers_buffer h))]).

Definition base_end_headers (h : handler) : handler :=
  if decide (request_version h ≠ "HTTP/0.9") then
    flush_headers (buffer_append CRLF h)
  else h.

(** *** CustomHTTPRequestHandler *)

Definition end_headers (h : handler) : handler :=
  let h := send_header "Access-Control-Allow-Origin" "*" h in
  let h := send_header "Access-Control-Allow-Methods" "GET, POST, OPTIONS" h in
  let h := send_header "Access-Control-Allow-Headers" "Content-Type" h in
  base_end_headers h.

(** *** Answering requests *)

Inductive call :=
| SendResponseOnly (code : nat) (message : string)
| SendHeader (keyword value : string)
| EndHeaders
| WriteBody (bytes : string).

Definition step (h : handler) (c : call) : handler :=
  match c with
  | SendResponseOnly code message => send_response_only code message h
  | SendHeader keyword value => send_header keyword value h
  | EndHeaders => end_headers h
  | WriteBody bytes => wfile_write (Body bytes) h
  end.

Definition run (cs : list call) (h : handler) : handler := foldl step h cs.

(** The three header lines as they appear on the wire. *)
Definition cors_lines : string :=
  "Access-Control-Allow-Origin: *" +:+ CRLF +:+
  "Access-Control-Allow-Methods: GET, POST, OPTIONS" +:+ CRLF +:+
  "Access-Control-Allow-Headers: Content-Type" +:+ CRLF.

(** The response heads among what went over the wire. *)
Definition heads (ws : list wire_write) : list string :=
  omap (λ x, match x with Head bytes => Some bytes | Body _ => None end) ws.

Definition is_end_headers (c : call) : bool :=
  match c with EndHeaders => true | _ => false end.

(** The answer to a request for a missing file, as [send_error] makes
    it. *)
Definition not_found : list call :=
  [SendResponseOnly 404 "File not found";
   SendHeader "Server" "SimpleHTTP/0.6 Python/3.11.4";
   SendHeader "Date" "Wed, 01 May 2024 12:00:00 GMT";
   SendHeader "Connection" "close";
   SendHeader "Content-Type" "text/html;charset=utf-8";
   SendHeader "Content-Length" "335";
   EndHeaders;
   WriteBody "<!DOCTYPE HTML>"].

Definition fresh (version : string) : handler :=
  Handler version "HTTP/1.0" [] true [].

End Handler.


(** ** The scenario of the specification

    [data/] holds [trial_a.json] (well-formed), [trial_b.json] (malformed
    until it is fixed) and a [manifest.json] left by an earlier run. *)
Module Scenario.

Definition DQ : string := String (ascii_of_nat 34) "".
Definition quoted (s : string) : string := DQ +:+ s +:+ DQ.

(** The verdict of [json.load] on the texts of the scenario. *)
Definition json_load (text : string) : option load_error :=
  if decide (text = "{bad") then
    Some (Malformed
      "Expecting property name enclosed in double quotes: line 1 column 2 (char 1)")
  else None.

(** The text that [json.dump] with [indent=2] and [ensure_ascii=False]
    makes of a manifest. *)
Definition json_dump (m : manifest) : string :=
  concat_chunks
    (manifest_head_chunks ++ list_chunks (files m) ++
     ["," +:+ LF +:+ "  "; encode_basestring "total_files"; ": ";
      pretty (total_files m);
      "," +:+ LF +:+ "  "; encode_basestring "generated_at"; ": ";
      encode_basestring (generated_at m);
      "," +:+ LF +:+ "  "; encode_basestring "note"; ": ";
      encode_basestring (note m);
      LF; "}"]).

Definition trial (id : string) : node :=
  RegularFile true true ("{" +:+ quoted "id" +:+ ":" +:+ id +:+ "}").

Definition stale : node := RegularFile true true "{}".

Definition in_dir (p : path_state) : world :=
  World "/home/user/clinical-trials-dashboard" true true p
        "2024-05-01T12:00:00.000000" false true true [] [].

(** [trial_b.json] is malformed. *)
Definition broken : world :=
  in_dir (IsDir (Dir true
    [("trial_b.json", RegularFile true true "{bad");
     ("manifest.json", stale);
     ("trial_a.json", trial "1")])).

(** [trial_b.json] has been fixed. *)
Definition fixed : world :=
  in_dir (IsDir (Dir true
    [("trial_b.json", trial "2");
     ("manifest.json", stale);
     ("trial_a.json", trial "1")])).

(** The same files, enumerated in another order and without the old
    manifest. *)
Definition fixed_reordered : world :=
  in_dir (IsDir (Dir true
    [("trial_a.json", trial "1");
     ("README.md", RegularFile true true "notes");
     ("trial_b.json", trial "2")])).

(** No [data/] at all. *)
Definition missing : world := in_dir Absent.

(** A regular file is in the way of [data/]. *)
Definition data_is_file : world := in_dir NotADirectory.

(** The port is taken by another process. *)
Definition port_taken : world :=
  World "/home/user/clinical-trials-dashboard" true true
        (IsDir (Dir true [("trial_a.json", trial "1")]))
        "2024-05-01T12:00:00.000000" true true true [] [].

(** No browser can be launched, and nobody interrupts the server. *)
Definition headless : world :=
  World "/home/user/clinical-trials-dashboard" true true
        (IsDir (Dir true [("trial_a.json", trial "1")]))
        "2024-05-01T12:00:00.000000" false false false [] [].



(** No [index.html] in the working directory. *)
Definition elsewhere : world :=
  World "/home/user" true false Absent
        "2024-05-01T12:00:00.000000" false true true [] [].

(** The manifest of a run that finds no data file, and [data/] as that run
    leaves it when it started without the directory. *)
Definition empty_manifest : manifest :=
  {| files := [];
     total_files := 0;
     generated_at := "2024-05-01T12:00:00.000000";
     note := "Auto-generated file list for Clinical Trials Dashboard" |}.

Definition only_manifest : world :=
  in_dir (IsDir (Dir true
    [("manifest.json", RegularFile true true (json_dump empty_manifest))])).

Definition expected : manifest :=
  {| files := ["trial_a.json"; "trial_b.json"];
     total_files := 2;
     generated_at := "2024-05-01T12:00:00.000000";
     note := "Auto-generated file list for Clinical Trials Dashboard" |}.

End Scenario.
(** * Properties *)

(** ** The monad *)

Lemma bind_unfold {A B} (m : M A) (k : A → M B) (w : world) :
  (m ≫= k) w =
  match m w with
  | (Returned a, w') => k a w'
  | (Raised e, w') => (Raised e, w')
  | (RunsForever, w') => (RunsForever, w')
  end.
Proof. reflexivity. Qed.

Lemma bind_Returned {A B} (m : M A) (k : A → M B) w b w' :
  (m ≫= k) w = (Returned b, w') ↔
  ∃ a w1, m w = (Returned a, w1) ∧ k a w1 = (Returned b, w').
Proof.
  rewrite bind_unfold. split.
  - destruct (m w) as [[a|e|] w1]; intros H; try discriminate. eauto.
  - intros (a & w1 & -> & H). exact H.
Qed.

Lemma bind_of_Returned {A B} (m : M A) (k : A → M B) w a w1 :
  m w = (Returned a, w1) → (m ≫= k) w = k a w1.
Proof. intros H. rewrite bind_unfold, H. reflexivity. Qed.

Lemma print_eq s w : print s w = (Returned tt, add_stdout s w).
Proof. reflexivity. Qed.

Lemma add_stdouts_fields ls w :
  data (add_stdouts ls w) = data w ∧ log (add_stdouts ls w) = log w ∧
  stdout (add_stdouts ls w) = stdout w ++ ls ∧
  index_html (add_stdouts ls w) = index_html w.
Proof.
  revert w. induction ls as [|l ls IH]; intros w; simpl.
  - by rewrite app_nil_r.
  - destruct (IH (add_stdout l w)) as (-> & -> & -> & ->). simpl.
    by rewrite <- app_assoc.
Qed.

Lemma for_each_print {A} (body : A → unit → M unit) (line : A → string) xs w :
  (∀ x u w0, body x u w0 = print (line x) w0) →
  for_each xs body tt w = (Returned tt, add_stdouts (line <$> xs) w).
Proof.
  intros Hbody. revert w. induction xs as [|x xs IH]; intros w; simpl.
  - reflexivity.
  - rewrite bind_unfold, Hbody, print_eq. destruct tt. apply IH.
Qed.

(** ** Matching names *)

Lemma fnmatch_star_spec rest name :
  fnmatch_star rest name = true ↔ ∃ p s, name = p +:+ s ∧ rest s = true.
Proof.
  induction name as [|c name IH]; simpl.
  - rewrite orb_false_r. split.
    + intros H. by exists "", "".
    + intros ([|c p] & s & E & H); [|discriminate]. by rewrite E.
  - rewrite orb_true_iff, IH. split.
    + intros [H|(p & s & -> & H)].
      * by exists "", (String c name).
      * by exists (String c p), s.
    + intros ([|c' p] & s & E & H).
      * left. by rewrite E.
      * right. change (String c name = String c' (p +:+ s)) in E.
        injection E as _ ->. eauto.
Qed.

Lemma fnmatchcase_literal pat name :
  literal pat = true → fnmatchcase pat name = true ↔ name = pat.
Proof.
  revert name. induction pat as [|c pat IH]; intros name; simpl.
  - intros _. destruct name; split; (reflexivity || discriminate).
  - rewrite !andb_true_iff, !negb_true_iff. intros [[-> Hq] Hlit].
    destruct name as [|d name]; [split; discriminate|].
    rewrite Hq, orb_false_l, andb_true_iff, Ascii.eqb_eq, (IH _ Hlit).
    split; [by intros [-> ->]|by intros [= -> ->]].
Qed.

Lemma fnmatchcase_star_literal pat name :
  literal pat = true →
  fnmatchcase (String "*" pat) name = true ↔ endswith name pat.
Proof.
  intros Hlit. change (fnmatchcase (String "*" pat) name)
    with (fnmatch_star (fnmatchcase pat) name).
  rewrite fnmatch_star_spec. unfold endswith. split.
  - intros (p & s & -> & H). apply (fnmatchcase_literal _ _ Hlit) in H as ->. eauto.
  - intros (p & ->). exists p, pat. split; [reflexivity|].
    by apply fnmatchcase_literal.
Qed.

Lemma glob_json_endswith name :
  fnmatchcase "*.json" name = true ↔ endswith name ".json".
Proof. by apply fnmatchcase_star_literal. Qed.

(** ** Validation *)

Section validation.
Variable json_load : string → option load_error.

Lemma validate_one_eq jf acc w :
  validate_one json_load jf acc w =
  (Returned (acc ++ option_list (failure_entry json_load jf)), w).
Proof.
  destruct jf as [name x].
  unfold validate_one, try_except, failure_entry, json_load_file; simpl.
  rewrite bind_unfold.
  destruct x as [[] wr text|]; simpl; try reflexivity.
  rewrite bind_unfold.
  destruct (json_load text) as [[msg|msg|msg]|]; simpl; try reflexivity.
  by rewrite app_nil_r.
Qed.

Lemma for_each_validate_one xs acc w :
  for_each xs (validate_one json_load) acc w =
  (Returned (acc ++ omap (failure_entry json_load) xs), w).
Proof.
  revert acc. induction xs as [|x xs IH]; intros acc; simpl.
  - by rewrite app_nil_r.
  - rewrite bind_unfold, validate_one_eq, IH.
    destruct (failure_entry json_load x); simpl; by rewrite <- ?app_assoc, ?app_nil_r.
Qed.

Lemma collect_invalid_files_eq w :
  collect_invalid_files json_load w =
  (Returned (omap (failure_entry json_load) (qualifying (data w))), w).
Proof.
  unfold collect_invalid_files. rewrite bind_unfold. simpl.
  apply for_each_validate_one.
Qed.

Lemma failure_entry_None jf :
  failure_entry json_load jf = None ↔ loads json_load jf.2 = true.
Proof.
  destruct jf as [name [[] wr text|]]; unfold failure_entry; simpl;
    try (split; discriminate).
  destruct (json_load text) as [[]|]; split; (discriminate || reflexivity).
Qed.

Lemma failure_entry_name jf r :
  failure_entry json_load jf = Some r → r.1 = jf.1.
Proof.
  destruct jf as [name [[] wr text|]]; unfold failure_entry; simpl.
  - destruct (json_load text) as [[]|]; intros [= <-] || discriminate; reflexivity.
  - by intros [= <-].
  - by intros [= <-].
Qed.

Lemma omap_failure_entry_names xs :
  (omap (failure_entry json_load) xs).*1 =
  (filter (λ e, loads json_load e.2 = false) xs).*1.
Proof.
  induction xs as [|x xs IH]; [reflexivity|]. simpl.
  destruct (failure_entry json_load x) as [r|] eqn:E.
  - rewrite filter_cons_True.
    + rewrite !fmap_cons. f_equal; [eauto using failure_entry_name|exact IH].
    + apply not_true_iff_false. rewrite <- failure_entry_None, E. discriminate.
  - rewrite filter_cons_False; [exact IH|].
    apply failure_entry_None in E. rewrite E. discriminate.
Qed.

Lemma omap_failure_entry_nil xs :
  omap (failure_entry json_load) xs = [] ↔
  Forall (λ e, loads json_load e.2 = true) xs.
Proof.
  induction xs as [|x xs IH]; simpl.
  - split; [constructor|reflexivity].
  - rewrite Forall_cons, <- IH, <- failure_entry_None.
    destruct (failure_entry json_load x); split.
    + discriminate.
    + intros [? _]; discriminate.
    + intros H; split; [reflexivity|exact H].
    + intros [_ H]; exact H.
Qed.

Lemma validate_json_files_eq w :
  validate_json_files json_load w =
  let invalid_files := omap (failure_entry json_load) (qualifying (data w)) in
  match invalid_files with
  | [] => (Returned true, add_stdout "✅ All JSON files are valid" w)
  | _ :: _ => (Returned false, add_stdouts (failure_report invalid_files) w)
  end.
Proof.
  unfold validate_json_files.
  rewrite bind_unfold, collect_invalid_files_eq. simpl.
  destruct (omap _ _) as [|r rs]; [reflexivity|].
  rewrite bind_unfold, print_eq, bind_unfold.
  rewrite for_each_print
    with (line := λ '(filename, error), "   - " +:+ filename +:+ ": " +:+ error).
  - reflexivity.
  - by intros [] [] ?.
Qed.
End validation.

(** ** The data directory *)

Lemma mkdir_exist_ok_eq w :
  mkdir_exist_ok w =
  match data w with
  | IsDir _ => (Returned tt, w)
  | NotADirectory =>
      (Raised (Exn FileExistsError ("[Errno 17] File exists: '" +:+ data_dir +:+ "'")), w)
  | Absent =>
      if cwd_writable w then
        (Returned tt, set_data (IsDir (Dir true [])) (add_log (EvMkdir data_dir) w))
      else
        (Raised (Exn PermissionError
                   ("[Errno 13] Permission denied: '" +:+ data_dir +:+ "'")), w)
  end.
Proof.
  unfold mkdir_exist_ok. rewrite bind_unfold. unfold gets at 1. cbv beta iota.
  destruct (data w); try reflexivity.
  rewrite bind_unfold. unfold gets at 1. cbv beta iota.
  destruct (cwd_writable w); reflexivity.
Qed.

(** The directory as it is once [mkdir] has returned. *)
Lemma mkdir_exist_ok_Returned w u w1 :
  mkdir_exist_ok w = (Returned u, w1) →
  data w1 = match data w with Absent => IsDir (Dir true []) | p => p end ∧
  (∃ d, data w1 = IsDir d) ∧
  glob "*.json" (data w1) = glob "*.json" (data w) ∧
  clock w1 = clock w ∧ stdout w1 = stdout w ∧ index_html w1 = index_html w ∧
  can_write_manifest w1 = can_write_manifest w ∧ cwd w1 = cwd w.
Proof.
  rewrite mkdir_exist_ok_eq. unfold can_write_manifest.
  destruct (data w) as [| |d] eqn:E; [destruct (cwd_writable w) eqn:Ew|..];
    intros [= <- <-] || discriminate; simpl; rewrite ?E; eauto 10.
Qed.

Lemma filter_fst_names {B} (P : string → Prop) `{∀ n, Decision (P n)}
    (es : list (string * B)) :
  (filter (λ e, P e.1) es).*1 = filter P es.*1.
Proof.
  induction es as [|e es IH]; [reflexivity|].
  rewrite fmap_cons, !filter_cons.
  destruct (decide (P e.1)); rewrite ?fmap_cons; by rewrite IH.
Qed.

Lemma glob_names pat d :
  (glob pat (IsDir d)).*1 = filter (λ n, fnmatchcase pat n) (entries d).*1.
Proof. exact (filter_fst_names (λ n, fnmatchcase pat n) (entries d)). Qed.

Lemma qualifying_names p :
  (qualifying p).*1 = filter (λ n, n ≠ "manifest.json") (glob "*.json" p).*1.
Proof. exact (filter_fst_names (λ n, n ≠ "manifest.json") (glob "*.json" p)). Qed.

Lemma lookup_entry_None name es :
  lookup_entry name es = None ↔ name ∉ es.*1.
Proof.
  induction es as [|[n x] es IH]; simpl.
  - split; [intros _; apply not_elem_of_nil|reflexivity].
  - rewrite not_elem_of_cons. destruct (decide (n = name)) as [->|Hne].
    + split; [discriminate|]. by intros [? _].
    + rewrite IH. split; [by intros ?; split|by intros [_ ?]].
Qed.

Lemma replace_entry_names name x es :
  (replace_entry name x es).*1 = es.*1.
Proof.
  induction es as [|[n y] es IH]; [reflexivity|]. cbn [replace_entry].
  destruct (decide (n = name)); rewrite !fmap_cons; [done|by rewrite IH].
Qed.

Lemma lookup_replace_entry name x es :
  lookup_entry name es ≠ None →
  lookup_entry name (replace_entry name x es) = Some x.
Proof.
  induction es as [|[n y] es IH]; simpl; [done|].
  destruct (decide (n = name)) as [->|Hne]; simpl.
  - by rewrite decide_True.
  - by rewrite decide_False.
Qed.

Lemma lookup_entry_snoc name x es :
  lookup_entry name es = None →
  lookup_entry name (es ++ [(name, x)]) = Some x.
Proof.
  induction es as [|[n y] es IH]; simpl.
  - by rewrite decide_True.
  - destruct (decide (n = name)); [discriminate|exact IH].
Qed.

Lemma open_write_eq name text w :
  open_write name text w =
  let path := joinpath data_dir name in
  match data w with
  | IsDir d =>
      match lookup_entry name (entries d) with
      | Some Directory =>
          (Raised (Exn IsADirectoryError (errno_message "21" "Is a directory" path)), w)
      | Some (RegularFile r wr _) =>
          if wr then
            (Returned tt,
             set_data (IsDir (Dir (dir_writable d)
               (replace_entry name (RegularFile r wr text) (entries d))))
               (add_log (EvOpenWrite path) w))
          else
            (Raised (Exn PermissionError
                       (errno_message "13" "Permission denied" path)), w)
      | None =>
          if dir_writable d then
            (Returned tt,
             set_data (IsDir (Dir (dir_writable d)
               (entries d ++ [(name, RegularFile true true text)])))
               (add_log (EvOpenWrite path) w))
          else
            (Raised (Exn PermissionError
                       (errno_message "13" "Permission denied" path)), w)
      end
  | _ =>
      (Raised (Exn FileNotFoundError
                 (errno_message "2" "No such file or directory" path)), w)
  end.
Proof.
  unfold open_write. cbv zeta. rewrite bind_unfold. unfold gets at 1. cbv beta iota.
  destruct (data w) as [| |d]; try reflexivity.
  destruct (lookup_entry name (entries d)) as [[r [] ?|]|]; try reflexivity.
  destruct (dir_writable d); reflexivity.
Qed.

(** What a successful write of [data/name] leaves behind. *)
Lemma open_write_Returned name text w u w2 :
  open_write name text w = (Returned u, w2) →
  ∃ d d2, data w = IsDir d ∧ data w2 = IsDir d2 ∧
    read_data_file name w2 = Some text ∧
    name ∈ (entries d2).*1 ∧
    filter (λ n, n ≠ name) (entries d2).*1 = filter (λ n, n ≠ name) (entries d).*1 ∧
    (NoDup (entries d).*1 → NoDup (entries d2).*1) ∧
    (∀ n, n ≠ name → lookup_entry n (entries d2) = lookup_entry n (entries d)) ∧
    stdout w2 = stdout w ∧ cwd w2 = cwd w ∧ index_html w2 = index_html w ∧
    log w2 = log w ++ [EvOpenWrite (joinpath data_dir name)].
Proof.
  rewrite open_write_eq. cbv zeta. unfold read_data_file.
  destruct (data w) as [| |d] eqn:Ed; try discriminate.
  destruct (lookup_entry name (entries d)) as [[r [] old|]|] eqn:El;
    try discriminate.
  - intros [= <- <-].
    exists d, (Dir (dir_writable d)
                 (replace_entry name (RegularFile r true text) (entries d))).
    cbn [data set_data add_log stdout cwd index_html log entries].
    split; [reflexivity|]. split; [reflexivity|].
    rewrite lookup_replace_entry, replace_entry_names by (by rewrite El).
    repeat split; try done.
    + apply dec_stable. intros Hn. apply lookup_entry_None in Hn. congruence.
    + intros n Hn. clear El. induction (entries d) as [|[n0 y] es IH]; simpl; [done|].
      destruct (decide (n0 = name)) as [->|Hne]; simpl.
      * by rewrite !decide_False.
      * destruct (decide (n0 = n)); [done|exact IH].
  - destruct (dir_writable d) eqn:Ew; try discriminate.
    intros [= <- <-].
    exists d, (Dir true (entries d ++ [(name, RegularFile true true text)])).
    cbn [data set_data add_log stdout cwd index_html log entries].
    split; [reflexivity|]. split; [reflexivity|].
    rewrite lookup_entry_snoc, fmap_app by done.
    change ([(name, RegularFile true true text)].*1) with [name].
    apply lookup_entry_None in El.
    repeat split; try done.
    + apply elem_of_app. right. apply list_elem_of_singleton. done.
    + rewrite filter_app, filter_cons_False, filter_nil, app_nil_r; [done|].
      by intros H; apply H.
    + intros Hnd. apply NoDup_app. repeat split; [done| |apply NoDup_singleton].
      intros n Hn ->%list_elem_of_singleton. done.
    + intros n Hn. clear El. induction (entries d) as [|[n0 y] es IH]; simpl.
      * by rewrite decide_False.
      * destruct (decide (n0 = n)); [done|exact IH].
Qed.

(** ** Generation *)

Lemma add_stdouts_app ls1 ls2 w :
  add_stdouts (ls1 ++ ls2) w = add_stdouts ls2 (add_stdouts ls1 w).
Proof. apply foldl_app. Qed.

Section generation.
Variable json_dump : manifest → string.

Lemma dump_to_file_eq name m w :
  dump_to_file json_dump name m w =
  if forallb valid_utf8 (files m) then open_write name (json_dump m) w
  else
    match open_write name (dump_fragment (files m)) w with
    | (Returned _, w2) =>
        (Raised (Exn UnicodeEncodeError
           "'utf-8' codec can't encode character: surrogates not allowed"), w2)
    | (Raised e, w2) => (Raised e, w2)
    | (RunsForever, w2) => (RunsForever, w2)
    end.
Proof.
  unfold dump_to_file. destruct (forallb valid_utf8 (files m)); [reflexivity|].
  rewrite bind_unfold. by destruct (open_write _ _ w) as [[[]|e|] w2].
Qed.

Lemma dump_to_file_Returned name m w u w2 :
  dump_to_file json_dump name m w = (Returned u, w2) →
  forallb valid_utf8 (files m) = true ∧
  open_write name (json_dump m) w = (Returned u, w2).
Proof.
  rewrite dump_to_file_eq. destruct (forallb valid_utf8 (files m)); [done|].
  by destruct (open_write _ _ w) as [[[]|e|] w3].
Qed.

(** [generate_manifest] is [mkdir], the write of the document, and the
    report; only the first two can fail. *)
Lemma generate_manifest_eq w :
  generate_manifest json_dump w =
  match mkdir_exist_ok w with
  | (Returned _, w1) =>
      let json_files := merge_sort String.le (qualifying (data w1)).*1 in
      let m := Manifest json_files (length json_files) (clock w1)
                 "Auto-generated file list for Clinical Trials Dashboard" in
      match dump_to_file json_dump "manifest.json" m w1 with
      | (Returned _, w2) =>
          (Returned m,
           add_stdouts (generate_report json_files (absolute w2 data_dir)) w2)
      | (Raised e, w2) => (Raised e, w2)
      | (RunsForever, w2) => (RunsForever, w2)
      end
  | (Raised e, w1) => (Raised e, w1)
  | (RunsForever, w1) => (RunsForever, w1)
  end.
Proof.
  unfold generate_manifest. rewrite bind_unfold.
  destruct (mkdir_exist_ok w) as [[[]|e|] w1]; try reflexivity.
  rewrite bind_unfold. unfold gets at 1. cbv beta iota.
  rewrite bind_unfold. unfold gets at 1. cbv beta iota zeta.
  rewrite bind_unfold.
  destruct (dump_to_file _ _ _ w1) as [[[]|e|] w2]; try reflexivity.
  generalize (merge_sort String.le (qualifying (data w1)).*1) as json_files.
  intros json_files.
  do 2 rewrite bind_unfold, print_eq.
  rewrite bind_unfold. unfold gets at 1. cbv beta iota.
  do 2 rewrite bind_unfold, print_eq.
  rewrite bind_unfold.
  rewrite for_each_print
    with (line := λ '(i, filename), "   " +:+ fmt_2d i +:+ ". " +:+ filename);
    [|by intros [] [] ?].
  unfold generate_report.
  rewrite (add_stdouts_app [_; _; _; _]), add_stdouts_app.
  rewrite bind_unfold.
  destruct (decide (length json_files = 0)); reflexivity.
Qed.

Lemma open_write_manifest_succeeds text w :
  (∃ d, data w = IsDir d) → can_write_manifest w = true →
  ∃ w2, open_write "manifest.json" text w = (Returned tt, w2).
Proof.
  intros [d Ed]. rewrite open_write_eq. unfold can_write_manifest.
  cbv zeta. rewrite Ed.
  destruct (lookup_entry _ _) as [[r [] ?|]|]; try discriminate; eauto.
  intros ->. eauto.
Qed.

Lemma open_write_manifest_needs text w u w2 :
  open_write "manifest.json" text w = (Returned u, w2) →
  can_write_manifest w = true.
Proof.
  rewrite open_write_eq. unfold can_write_manifest. cbv zeta.
  destruct (data w) as [| |d]; try discriminate.
  destruct (lookup_entry _ _) as [[r [] ?|]|]; try discriminate; try done.
  by destruct (dir_writable d).
Qed.

(** [generate_manifest] returns when the file system lets it write and
    every name it lists can be encoded. *)
Lemma generate_manifest_succeeds w :
  can_write_manifest w = true →
  forallb valid_utf8 (merge_sort String.le (qualifying (data w)).*1) = true →
  ∃ m w', generate_manifest json_dump w = (Returned m, w').
Proof.
  intros Hw Hvalid. rewrite generate_manifest_eq.
  destruct (mkdir_exist_ok w) as [[[]|e|] w1] eqn:Emk.
  - apply mkdir_exist_ok_Returned in Emk as (_ & Hd & Hglob & _ & _ & _ & Hcw & _).
    rewrite <- Hcw in Hw. cbv zeta.
    assert (qualifying (data w1) = qualifying (data w)) as ->
      by (unfold qualifying; by rewrite Hglob).
    rewrite dump_to_file_eq. cbn [files]. rewrite Hvalid.
    edestruct open_write_manifest_succeeds as [w2 ->]; eauto.
  - rewrite mkdir_exist_ok_eq in Emk. unfold can_write_manifest in Hw.
    destruct (data w); try discriminate. rewrite Hw in Emk. discriminate.
  - rewrite mkdir_exist_ok_eq in Emk.
    destruct (data w); try discriminate. destruct (cwd_writable w); discriminate.
Qed.

(** Everything a run of [generate_manifest] that returns has done. *)
Lemma generate_manifest_Returned w m w' :
  generate_manifest json_dump w = (Returned m, w') →
  files m = merge_sort String.le (qualifying (data w)).*1 ∧
  total_files m = length (files m) ∧
  generated_at m = clock w ∧
  can_write_manifest w = true ∧
  read_data_file "manifest.json" w' = Some (json_dump m) ∧
  stdout w' = stdout w ++ generate_report (files m) (absolute w data_dir) ∧
  index_html w' = index_html w ∧
  ∃ d', data w' = IsDir d' ∧
    "manifest.json" ∈ (entries d').*1 ∧
    filter (λ n, n ≠ "manifest.json") (entries d').*1 =
      filter (λ n, n ≠ "manifest.json") (entry_names (data w)) ∧
    (wf_path (data w) → NoDup (entries d').*1).
Proof.
  rewrite generate_manifest_eq.
  destruct (mkdir_exist_ok w) as [[[]|e|] w1] eqn:Emk; try discriminate.
  cbv zeta.
  destruct (dump_to_file _ _ _ w1) as [[[]|e|] w2] eqn:Edump; try discriminate.
  apply dump_to_file_Returned in Edump as [_ Eow].
  destruct (add_stdouts_fields
    (generate_report (merge_sort String.le (qualifying (data w1)).*1)
       (absolute w2 data_dir)) w2) as (Hdata' & _ & Hout' & Hidx').
  revert Hdata' Hout' Hidx'. generalize (add_stdouts
    (generate_report (merge_sort String.le (qualifying (data w1)).*1)
       (absolute w2 data_dir)) w2).
  intros w3 Hdata' Hout' Hidx' [= <- <-].
  pose proof (open_write_manifest_needs _ _ _ _ Eow) as Hcan.
  apply mkdir_exist_ok_Returned in Emk as (Hd1 & _ & Hglob & Hclock & Hout & Hidx & Hcw & Hcwd1).
  apply open_write_Returned
    in Eow as (d1 & d2 & Ed1 & Ed2 & Hread & Hin & Hnames & Hnd & _ & Hout2 & Hcwd & Hidx2 & _).
  cbn [files total_files generated_at].
  assert (qualifying (data w1) = qualifying (data w)) as Hq
    by (unfold qualifying; by rewrite Hglob).
  assert (absolute w2 data_dir = absolute w data_dir) as Habs.
  { unfold absolute. by rewrite Hcwd, Hcwd1. }
  rewrite Hq, Habs in *.
  split; [done|]. split; [done|]. split; [done|].
  split; [by rewrite <- Hcw|].
  split; [unfold read_data_file in *; by rewrite Hdata'|].
  split; [by rewrite Hout', Hout2, Hout|].
  split; [by rewrite Hidx', Hidx2, Hidx|].
  exists d2. rewrite Hdata'. split; [done|]. split; [done|].
  rewrite Hd1 in Ed1. split.
  - rewrite Hnames. destruct (data w); by simplify_eq.
  - intros Hwf. apply Hnd. destruct (data w); simplify_eq; [apply NoDup_nil_2|done].
Qed.

(** A run that returns has listed only names that can be encoded. *)
Lemma generate_manifest_valid_names w m w' :
  generate_manifest json_dump w = (Returned m, w') →
  forallb valid_utf8 (files m) = true.
Proof.
  rewrite generate_manifest_eq.
  destruct (mkdir_exist_ok w) as [[[]|e|] w1]; try discriminate.
  cbv zeta.
  destruct (dump_to_file _ _ _ w1) as [[[]|e|] w2] eqn:Edump; try discriminate.
  apply dump_to_file_Returned in Edump as [Hvalid _].
  by intros [= <- _].
Qed.

(** A run that returns, step by step. *)
Lemma generate_manifest_inv w m w' :
  generate_manifest json_dump w = (Returned m, w') →
  ∃ w1 w2,
    mkdir_exist_ok w = (Returned tt, w1) ∧
    open_write "manifest.json" (json_dump m) w1 = (Returned tt, w2) ∧
    w' = add_stdouts (generate_report (files m) (absolute w2 data_dir)) w2.
Proof.
  rewrite generate_manifest_eq.
  destruct (mkdir_exist_ok w) as [[[]|e|] w1]; try discriminate.
  cbv zeta.
  destruct (dump_to_file _ _ _ w1) as [[[]|e|] w2] eqn:Edump; try discriminate.
  apply dump_to_file_Returned in Edump as [_ Eow].
  intros [= <- <-]. eauto.
Qed.

End generation.


Example scenario_fixed_generates :
  (generate_manifest Scenario.json_dump Scenario.fixed).1 = Returned Scenario.expected.
Proof. vm_compute. reflexivity. Qed.

Lemma qualifying_names_NoDup p : wf_path p → NoDup (qualifying p).*1.
Proof.
  intros Hwf. rewrite qualifying_names. apply NoDup_filter.
  destruct p as [| |d]; try apply NoDup_nil_2.
  rewrite glob_names. by apply NoDup_filter.
Qed.

Lemma qualifying_names_spec p n :
  n ∈ (qualifying p).*1 ↔
  n ≠ "manifest.json" ∧ endswith n ".json" ∧
  ∃ d, p = IsDir d ∧ n ∈ (entries d).*1.
Proof.
  rewrite qualifying_names, list_elem_of_filter.
  destruct p as [| |d].
  - simpl. rewrite elem_of_nil. split; [tauto|]. by intros (_ & _ & d & [=] & _).
  - simpl. rewrite elem_of_nil. split; [tauto|]. by intros (_ & _ & d & [=] & _).
  - rewrite glob_names, list_elem_of_filter, Is_true_true, glob_json_endswith.
    split.
    + intros (? & ? & ?). eauto 6.
    + intros (? & ? & d' & [= <-] & ?). eauto.
Qed.

(** ** The claims about [generate_manifest] *)

(** C2. Determinism: two runs over directories that hold the same set of
    qualifying file names, enumerated in whatever order, give manifests
    with the same [files] list, sorted ascending in the lexicographic order
    of the names and made of exactly those names, and the same
    [total_files]. *)
Theorem generate_manifest_deterministic json_dump w1 w2 m1 m2 w1' w2' :
  wf_path (data w1) → wf_path (data w2) →
  (∀ n, n ∈ (qualifying (data w1)).*1 ↔ n ∈ (qualifying (data w2)).*1) →
  generate_manifest json_dump w1 = (Returned m1, w1') →
  generate_manifest json_dump w2 = (Returned m2, w2') →
  files m1 = files m2 ∧ total_files m1 = total_files m2 ∧
  Sorted String.le (files m1) ∧ files m1 ≡ₚ (qualifying (data w1)).*1.
Proof.
  intros Hwf1 Hwf2 Hsame
    (Hf1 & Ht1 & _)%generate_manifest_Returned
    (Hf2 & Ht2 & _)%generate_manifest_Returned.
  assert ((qualifying (data w1)).*1 ≡ₚ (qualifying (data w2)).*1) as Hperm
    by (apply NoDup_Permutation; auto using qualifying_names_NoDup).
  assert (files m1 = files m2) as Heq.
  { rewrite Hf1, Hf2. apply (Sorted_unique String.le).
    - apply Sorted_merge_sort, _.
    - apply Sorted_merge_sort, _.
    - by rewrite !merge_sort_Permutation. }
  split; [exact Heq|]. split; [by rewrite Ht1, Ht2, Heq|].
  rewrite Hf1. split; [apply Sorted_merge_sort, _|apply merge_sort_Permutation].
Qed.

(** C3. Exclusion: in every manifest that [generate_manifest] produces,
    whatever the directory holds (a [manifest.json] of an earlier run
    included), [files] has no entry ["manifest.json"] and each of its
    entries ends in [".json"]. *)
Theorem generate_manifest_files_excludes_manifest json_dump w m w' :
  generate_manifest json_dump w = (Returned m, w') →
  ("manifest.json" ∉ files m) ∧ (∀ f, f ∈ files m → endswith f ".json").
Proof.
  intros (Hf & _)%generate_manifest_Returned.
  assert (∀ f, f ∈ files m ↔ f ∈ (qualifying (data w)).*1) as Hin
    by (intros f; by rewrite Hf, merge_sort_Permutation).
  split.
  - rewrite Hin, qualifying_names_spec. by intros [? _].
  - intros f. rewrite Hin, qualifying_names_spec. by intros (_ & ? & _).
Qed.

(** C4. Count: in every manifest that [generate_manifest] produces,
    [total_files] is the length of [files]. *)
Theorem generate_manifest_total_files json_dump w m w' :
  generate_manifest json_dump w = (Returned m, w') →
  total_files m = length (files m).
Proof. by intros (_ & Ht & _)%generate_manifest_Returned. Qed.

(** C8. Empty directory: when [data/] does not exist or holds no
    qualifying file, validation returns [True] without raising, and
    [generate_manifest], where the file system lets it write, returns a
    manifest with [files = []] and [total_files = 0] that it has written to
    [data/manifest.json]; listing a directory that is not there gives no
    file and no error. *)
Theorem empty_data_directory json_load json_dump w :
  data w = Absent ∨ (∃ d, data w = IsDir d ∧ qualifying (data w) = []) →
  (data w = Absent → glob "*.json" (data w) = []) ∧
  qualifying (data w) = [] ∧
  validate_json_files json_load w =
    (Returned true, add_stdout "✅ All JSON files are valid" w) ∧
  (can_write_manifest w = true →
   ∃ m w', generate_manifest json_dump w = (Returned m, w') ∧
     files m = [] ∧ total_files m = 0 ∧
     read_data_file "manifest.json" w' = Some (json_dump m)).
Proof.
  intros Hempty.
  assert (qualifying (data w) = []) as Hq
    by (destruct Hempty as [->|(d & _ & ?)]; done).
  split; [|split; [exact Hq|split]].
  - by intros ->.
  - rewrite validate_json_files_eq, Hq. reflexivity.
  - intros Hcw.
    destruct (generate_manifest_succeeds json_dump w Hcw) as (m & w' & Hg);
      [by rewrite Hq|].
    exists m, w'. split; [exact Hg|].
    apply generate_manifest_Returned in Hg as (Hf & Ht & _ & _ & Hread & _).
    rewrite Hq in Hf. change (files m = []) in Hf.
    rewrite Ht, Hf. done.
Qed.

(** ** The claims about validation and the entry point *)

Lemma validate_json_files_outcome json_load w :
  let candidates := qualifying (data w) in
  let invalid_files := omap (failure_entry json_load) candidates in
  ∃ b w',
    validate_json_files json_load w = (Returned b, w') ∧
    (b = true ↔ Forall (λ e, loads json_load e.2 = true) candidates) ∧
    data w' = data w ∧ log w' = log w ∧
    stdout w' = stdout w ++
      (if b then ["✅ All JSON files are valid"] else failure_report invalid_files).
Proof.
  intros candidates invalid_files.
  rewrite validate_json_files_eq. fold candidates. fold invalid_files.
  pose proof (omap_failure_entry_nil json_load candidates) as Hnil.
  fold invalid_files in Hnil. cbv zeta.
  destruct invalid_files as [|r rs] eqn:E.
  - exists true, (add_stdout "✅ All JSON files are valid" w).
    split; [done|]. split; [by rewrite <- Hnil|]. done.
  - exists false, (add_stdouts (failure_report (r :: rs)) w).
    destruct (add_stdouts_fields (failure_report (r :: rs)) w) as (? & ? & ? & _).
    split; [done|]. split; [|done].
    rewrite <- Hnil. split; discriminate.
Qed.

Lemma qualifying_elem p e :
  e ∈ qualifying p ↔
  e ∈ data_entries p ∧ endswith e.1 ".json" ∧ e.1 ≠ "manifest.json".
Proof.
  unfold qualifying. rewrite list_elem_of_filter.
  destruct p as [| |d]; cbn [glob data_entries].
  - rewrite elem_of_nil. tauto.
  - rewrite elem_of_nil. tauto.
  - rewrite list_elem_of_filter, Is_true_true, glob_json_endswith. tauto.
Qed.

Lemma qualifying_sublist p : qualifying p `sublist_of` data_entries p.
Proof.
  unfold qualifying. etrans; [apply sublist_filter|].
  destruct p as [| |d]; cbn [glob data_entries]; [done..|apply sublist_filter].
Qed.

(** C5. Validation examines the entries of [data/] whose name ends in
    [.json], [manifest.json] apart, all of them and in the order of
    enumeration, and it returns whatever these files are: [True] exactly
    when every one of them can be read and parses, [True] in particular
    when there is none.  For each examined file that cannot be read or
    parsed the loop records one (file name, reason) entry and goes on to
    the next file; these entries make the report.  Nothing on disk
    changes. *)
Theorem validate_json_files_collects json_load w :
  let examined (e : string * node) :=
    e ∈ data_entries (data w) ∧ endswith e.1 ".json" ∧ e.1 ≠ "manifest.json" in
  let candidates := qualifying (data w) in
  let invalid_files := omap (failure_entry json_load) candidates in
  (∀ e, e ∈ candidates ↔ examined e) ∧
  candidates `sublist_of` data_entries (data w) ∧
  collect_invalid_files json_load w = (Returned invalid_files, w) ∧
  invalid_files.*1 = (filter (λ e, loads json_load e.2 = false) candidates).*1 ∧
  (∀ e, examined e → loads json_load e.2 = false →
        ∃ reason, (e.1, reason) ∈ invalid_files) ∧
  ∃ b w',
    validate_json_files json_load w = (Returned b, w') ∧
    (b = true ↔ ∀ e, examined e → loads json_load e.2 = true) ∧
    ((∀ e, ¬ examined e) → b = true) ∧
    data w' = data w ∧ log w' = log w ∧
    stdout w' = stdout w ++
      (if b then ["✅ All JSON files are valid"] else failure_report invalid_files).
Proof.
  intros examined candidates invalid_files.
  assert (∀ e, e ∈ candidates ↔ examined e) as Hexamined
    by (intros e; apply qualifying_elem).
  split; [exact Hexamined|].
  split; [apply qualifying_sublist|].
  split; [apply collect_invalid_files_eq|].
  split; [apply omap_failure_entry_names|].
  split.
  { intros e He Hbad. apply Hexamined in He.
    destruct (failure_entry json_load e) as [[n reason]|] eqn:Ef.
    - pose proof (failure_entry_name _ _ _ Ef) as Hn. cbn [fst] in Hn. subst n.
      exists reason. apply list_elem_of_omap. eauto.
    - apply failure_entry_None in Ef. congruence. }
  destruct (validate_json_files_outcome json_load w) as (b & w' & Hv & Hb & Hrest).
  exists b, w'. split; [exact Hv|].
  fold candidates in Hb. rewrite Forall_forall in Hb.
  split; [|split; [|exact Hrest]].
  - rewrite Hb. split.
    + intros Hall e He. apply Hall. by apply Hexamined.
    + intros Hall e He. apply Hall. by apply Hexamined.
  - intros Hnone. apply Hb. intros e He. apply Hexamined in He.
    by destruct (Hnone e).
Qed.

(** How the entry point ends once validation has found a bad file. *)
Lemma main_validation_fails json_load json_dump w :
  ¬ Forall (λ e, loads json_load e.2 = true) (qualifying (data w)) →
  ∃ w1,
    validate_json_files json_load (add_stdout "🔍 Validating JSON files..." w)
      = (Returned false, w1) ∧
    main json_load json_dump w =
      (Returned tt,
       add_stdout (LF +:+ "🛑 Please fix the invalid JSON files before continuing.") w1) ∧
    data w1 = data w ∧ log w1 = log w.
Proof.
  intros Hbad.
  destruct (validate_json_files_outcome json_load
              (add_stdout "🔍 Validating JSON files..." w))
    as (b & w1 & Hv & Hb & Hdata & Hlog & _).
  change (data (add_stdout _ w)) with (data w) in *.
  change (log (add_stdout _ w)) with (log w) in *.
  destruct b; [by destruct Hbad; apply Hb|].
  exists w1. split; [exact Hv|]. split; [|done].
  unfold main. rewrite bind_unfold, print_eq, bind_unfold, Hv. reflexivity.
Qed.

(** C1. Validation gate: when some qualifying file cannot be read or does
    not parse, the entry point runs validation, prints the closing request
    to fix the files, and does nothing else: [generate_manifest] is not
    run, no directory is made and no file is opened for writing, so
    [data/], and [data/manifest.json] in it, are as they were. *)
Theorem main_validation_gate json_load json_dump w e :
  e ∈ qualifying (data w) → loads json_load e.2 = false →
  ∃ w1,
    validate_json_files json_load (add_stdout "🔍 Validating JSON files..." w)
      = (Returned false, w1) ∧
    main json_load json_dump w =
      (Returned tt,
       add_stdout (LF +:+ "🛑 Please fix the invalid JSON files before continuing.") w1) ∧
    let w' := (main json_load json_dump w).2 in
    data w' = data w ∧ log w' = log w ∧
    read_data_file "manifest.json" w' = read_data_file "manifest.json" w.
Proof.
  intros Hin Hbad.
  destruct (main_validation_fails json_load json_dump w) as (w1 & Hv & Hmain & Hdata & Hlog).
  { rewrite Forall_forall. intros Hall. specialize (Hall e Hin). congruence. }
  exists w1. split; [exact Hv|]. split; [exact Hmain|].
  rewrite Hmain. cbv zeta. unfold read_data_file.
  cbn [snd data log add_stdout]. by rewrite Hdata, Hlog.
Qed.

(** How the entry point ends once validation has passed. *)
Lemma main_validation_passes json_load json_dump w :
  Forall (λ e, loads json_load e.2 = true) (qualifying (data w)) →
  can_write_manifest w = true →
  forallb valid_utf8 (merge_sort String.le (qualifying (data w)).*1) = true →
  ∃ m w3,
    main json_load json_dump w =
      (Returned tt, add_stdout (LF +:+ "🎉 Done! Your dashboard is ready to use.") w3) ∧
    read_data_file "manifest.json" w3 = Some (json_dump m) ∧
    files m = merge_sort String.le (qualifying (data w)).*1.
Proof.
  intros Hall Hcw Hvalid.
  set (w2 := add_stdout (LF +:+ "📝 Generating manifest...")
               (add_stdout "✅ All JSON files are valid"
                  (add_stdout "🔍 Validating JSON files..." w))).
  destruct (generate_manifest_succeeds json_dump w2 Hcw Hvalid) as (m & w3 & Hg).
  exists m, w3.
  pose proof (generate_manifest_Returned _ _ _ _ Hg) as (Hf & _ & _ & _ & Hread & _).
  split; [|by split].
  unfold main. rewrite bind_unfold, print_eq, bind_unfold, validate_json_files_eq.
  cbv zeta. change (data (add_stdout _ w)) with (data w).
  apply omap_failure_entry_nil in Hall. rewrite Hall.
  rewrite bind_unfold, print_eq, bind_unfold. fold w2. rewrite Hg.
  reflexivity.
Qed.

Lemma generate_manifest_cannot_write json_dump w :
  can_write_manifest w = false →
  ∃ e, generate_manifest json_dump w = (Raised e, w) ∧
       isinstance e OSError = true ∧ isinstance e KeyboardInterrupt = false.
Proof.
  unfold can_write_manifest. intros Hcw.
  rewrite generate_manifest_eq, mkdir_exist_ok_eq. cbv zeta.
  destruct (data w) as [| |d] eqn:Ed.
  - rewrite Hcw. eexists. split; [reflexivity|]. split; vm_compute; reflexivity.
  - eexists. split; [reflexivity|]. split; vm_compute; reflexivity.
  - rewrite dump_to_file_eq.
    destruct (forallb valid_utf8 _); rewrite open_write_eq; cbv zeta; rewrite Ed;
      destruct (lookup_entry "manifest.json" (entries d)) as [[r wr old|]|];
      rewrite ?Hcw; eexists; (split; [reflexivity|]); split; vm_compute; reflexivity.
Qed.






(** ** The scenario of the specification, through the claims *)

Lemma scenario_fixed_run :
  generate_manifest Scenario.json_dump Scenario.fixed =
  (Returned Scenario.expected,
   (generate_manifest Scenario.json_dump Scenario.fixed).2).
Proof. vm_compute. reflexivity. Defined.

Lemma scenario_reordered_run :
  generate_manifest Scenario.json_dump Scenario.fixed_reordered =
  (Returned Scenario.expected,
   (generate_manifest Scenario.json_dump Scenario.fixed_reordered).2).
Proof. vm_compute. reflexivity. Defined.

Lemma main_validation_gate_witness :
  read_data_file "manifest.json"
    (main Scenario.json_load Scenario.json_dump Scenario.broken).2 =
  read_data_file "manifest.json" Scenario.broken.
Proof.
  destruct (main_validation_gate Scenario.json_load Scenario.json_dump
              Scenario.broken ("trial_b.json", RegularFile true true "{bad"))
    as (w1 & _ & _ & H).
  - vm_compute. left.
  - vm_compute. reflexivity.
  - cbv zeta in H. destruct H as (_ & _ & H). exact H.
Defined.

Lemma generate_manifest_deterministic_witness :
  files Scenario.expected = files Scenario.expected ∧
  total_files Scenario.expected = total_files Scenario.expected ∧
  Sorted String.le (files Scenario.expected) ∧
  files Scenario.expected ≡ₚ (qualifying (data Scenario.fixed)).*1.
Proof.
  apply (generate_manifest_deterministic Scenario.json_dump
           Scenario.fixed Scenario.fixed_reordered
           Scenario.expected Scenario.expected
           (generate_manifest Scenario.json_dump Scenario.fixed).2
           (generate_manifest Scenario.json_dump Scenario.fixed_reordered).2).
  - change (NoDup ["trial_b.json"; "manifest.json"; "trial_a.json"]).
    apply (bool_decide_unpack _). vm_compute. exact I.
  - change (NoDup ["trial_a.json"; "README.md"; "trial_b.json"]).
    apply (bool_decide_unpack _). vm_compute. exact I.
  - intros n.
    change ((qualifying (data Scenario.fixed)).*1)
      with ["trial_b.json"; "trial_a.json"].
    change ((qualifying (data Scenario.fixed_reordered)).*1)
      with ["trial_a.json"; "trial_b.json"].
    rewrite !elem_of_cons, !elem_of_nil. tauto.
  - exact scenario_fixed_run.
  - exact scenario_reordered_run.
Defined.

Lemma generate_manifest_files_excludes_manifest_witness :
  ("manifest.json" ∉ files Scenario.expected) ∧
  Forall (λ f, endswith f ".json") (files Scenario.expected).
Proof.
  destruct (generate_manifest_files_excludes_manifest Scenario.json_dump
              Scenario.fixed Scenario.expected
              (generate_manifest Scenario.json_dump Scenario.fixed).2
              scenario_fixed_run) as [Hnot Hall].
  split; [exact Hnot|]. apply Forall_forall, Hall.
Defined.

Lemma generate_manifest_total_files_witness :
  total_files Scenario.expected = length (files Scenario.expected).
Proof.
  exact (generate_manifest_total_files Scenario.json_dump
           Scenario.fixed _ _ scenario_fixed_run).
Defined.

Lemma empty_data_directory_witness :
  validate_json_files Scenario.json_load Scenario.missing =
  (Returned true, add_stdout "✅ All JSON files are valid" Scenario.missing).
Proof.
  destruct (empty_data_directory Scenario.json_load Scenario.json_dump
              Scenario.missing) as (_ & _ & H & _).
  - left. reflexivity.
  - exact H.
Defined.

(** ** The server *)

Lemma add_stdouts_eq ls w :
  add_stdouts ls w =
  World (cwd w) (cwd_writable w) (index_html w) (data w) (clock w)
        (port_in_use w) (browser_available w) (ctrl_c w) (stdout w ++ ls) (log w).
Proof.
  revert w. induction ls as [|l ls IH]; intros w.
  - rewrite app_nil_r. by destruct w.
  - change (add_stdouts (l :: ls) w) with (add_stdouts ls (add_stdout l w)).
    rewrite IH. simpl. by rewrite <- app_assoc.
Qed.

(** Without [index.html] the server prints two lines and returns. *)
Lemma start_server_no_index w :
  index_html w = false →
  start_server w =
  (Returned tt,
   add_stdouts ["❌ Error: index.html not found in current directory";
                "Please run this script from the clinical-trials-dashboard folder"] w).
Proof.
  intros H. unfold start_server. rewrite bind_unfold. unfold gets at 1.
  cbv beta iota. rewrite H. reflexivity.
Qed.

(** With [index.html] and a directory [data/], the whole run. *)
Lemma start_server_with_data w d :
  index_html w = true → data w = IsDir d →
  start_server w =
  (if port_in_use w then Raised (Exn OSError "[Errno 98] Address already in use")
   else if ctrl_c w then Returned tt else RunsForever,
   World (cwd w) (cwd_writable w) (index_html w) (data w) (clock w)
     (port_in_use w) (browser_available w) (ctrl_c w)
     (stdout w ++ server_listing (glob "*.json" (data w)) ++
        (if port_in_use w then []
         else server_banner (cwd w) ++
              (if ctrl_c w then [LF +:+ "👋 Server stopped!"] else [])))
     (log w ++
        (if port_in_use w then []
         else EvBind PORT ::
              (if browser_available w
               then [EvBrowser ("http://localhost:" +:+ pretty PORT)] else []) ++
              (if ctrl_c w then [EvClose PORT] else [])))).
Proof.
  intros Hidx Hd. unfold start_server.
  rewrite bind_unfold. unfold gets at 1. cbv beta iota. rewrite Hidx.
  cbn [negb]. rewrite bind_unfold, mkdir_exist_ok_eq, Hd.
  rewrite bind_unfold. unfold gets at 1. cbv beta iota. rewrite Hd.
  rewrite bind_unfold.
  assert (∃ wa, (match glob "*.json" (IsDir d) with
           | [] =>
               print "⚠️  Warning: No JSON files found in data/ directory";;
               print "Please add your JSON files to the data/ folder"
           | _ :: _ =>
               print ("✅ Found " +:+ pretty (length (glob "*.json" (IsDir d)))
                      +:+ " JSON files:");;
               for_each (glob "*.json" (IsDir d)) (λ f _, print ("   - " +:+ f.1)) tt
           end) w = (Returned tt, wa) ∧
         wa = add_stdouts (server_listing (glob "*.json" (IsDir d))) w) as (wa & -> & Hwa).
  { destruct (glob "*.json" (IsDir d)) as [|e es] eqn:Eg.
    - eexists. split; reflexivity.
    - eexists. split; [|reflexivity].
      rewrite bind_unfold, print_eq.
      rewrite for_each_print with (line := λ f, "   - " +:+ f.1) by done.
      reflexivity. }
  rewrite add_stdouts_eq in Hwa. subst wa.
  generalize (server_listing (glob "*.json" (IsDir d))). intros ls.
  unfold TCPServer_init. rewrite !bind_unfold. unfold gets at 1.
  cbv beta iota. cbn [port_in_use].
  destruct (port_in_use w).
  { cbn [raise]. rewrite !app_nil_r. by rewrite Hidx, Hd. }
  unfold modify at 1. cbv beta iota.
  unfold with_exit, webbrowser_open, serve_forever, server_close, try_except.
  unfold mbind, M_bind, mret, M_ret, print, gets, modify, raise, add_log, add_stdout.
  cbn [cwd browser_available ctrl_c stdout log data cwd_writable index_html clock port_in_use].
  rewrite ?Hidx, ?Hd.
  destruct (browser_available w), (ctrl_c w); cbn;
    try change (bool_decide (KeyboardInterrupt = KeyboardInterrupt)) with true;
    cbn; rewrite <- ?app_assoc; reflexivity.
Qed.

(** C7. Preflight gate: started in a directory without [index.html], the
    server prints the error and returns at once: the log of system calls
    is as it was, so no socket has been bound (and [data/] has not been
    made either). *)
Theorem start_server_preflight_gate w :
  index_html w = false →
  let r := start_server w in
  r.1 = Returned tt ∧
  stdout r.2 = stdout w ++
    ["❌ Error: index.html not found in current directory";
     "Please run this script from the clinical-trials-dashboard folder"] ∧
  log r.2 = log w ∧ data r.2 = data w ∧
  (∀ port, EvBind port ∈ log r.2 → EvBind port ∈ log w).
Proof.
  intros H. cbv zeta. rewrite (start_server_no_index w H), add_stdouts_eq.
  cbn [fst snd stdout log data]. done.
Qed.

Lemma start_server_preflight_gate_witness :
  log (start_server Scenario.elsewhere).2 = [].
Proof.
  destruct (start_server_preflight_gate Scenario.elsewhere) as (_ & _ & H & _).
  - reflexivity.
  - exact H.
Defined.

(** With [index.html] in place and the port free, the socket is bound. *)
Lemma start_server_binds w d :
  index_html w = true → data w = IsDir d → port_in_use w = false →
  EvBind PORT ∈ log (start_server w).2.
Proof.
  intros Hidx Hd Hport. rewrite (start_server_with_data w d Hidx Hd), Hport.
  cbn [snd log]. apply elem_of_app. right. left.
Qed.

Lemma filter_filter_comm {A} (P Q : A → Prop)
    `{∀ x, Decision (P x)} `{∀ x, Decision (Q x)} (l : list A) :
  filter P (filter Q l) = filter Q (filter P l).
Proof.
  rewrite !list_filter_filter. apply list_filter_iff. intros x. tauto.
Qed.

Lemma NoDup_length_filter_ne (x : string) (l : list string) :
  NoDup l → x ∈ l → length l = S (length (filter (λ n, n ≠ x) l)).
Proof.
  induction 1 as [|y l Hy Hnd IH].
  - by intros ?%elem_of_nil.
  - intros [->|Hin]%elem_of_cons.
    + rewrite filter_cons_False by (by intros H; apply H). simpl. f_equal.
      clear IH Hnd. induction l as [|z l IH]; [done|].
      apply not_elem_of_cons in Hy as [Hz Hl].
      rewrite filter_cons_True by done. simpl. f_equal. auto.
    + rewrite filter_cons_True by (by intros ->). simpl. f_equal. auto.
Qed.

(** The server lists [manifest.json] among the JSON files of a directory
    that has one. *)
Lemma glob_json_manifest d :
  "manifest.json" ∈ (entries d).*1 →
  "manifest.json" ∈ (glob "*.json" (IsDir d)).*1.
Proof.
  intros Hin. rewrite glob_names. apply list_elem_of_filter. split; [|done].
  vm_compute. exact I.
Qed.

(** No line the server prints after the listing, and no line of a
    non-empty listing, is the advisory warning. *)
Ltac differs_within n :=
  let H := fresh in
  intros H; apply (f_equal (String.substring 0 n)) in H;
  vm_compute in H; discriminate H.

Lemma warning_not_in_listing e es :
  "⚠️  Warning: No JSON files found in data/ directory" ∉ server_listing (e :: es).
Proof.
  unfold server_listing.
  generalize (e :: es). intros l.
  rewrite not_elem_of_cons. split; [differs_within 3|].
  intros (f & H & _)%list_elem_of_fmap. revert H. differs_within 1.
Qed.

Lemma warning_not_in_banner here tail :
  tail = [] ∨ tail = [LF +:+ "👋 Server stopped!"] →
  "⚠️  Warning: No JSON files found in data/ directory" ∉ server_banner here ++ tail.
Proof.
  intros Htail. unfold server_banner.
  rewrite elem_of_app, !elem_of_cons, elem_of_nil.
  intros [[H|[H|[H|[H|[]]]]]|H]; revert H; try differs_within 1.
  destruct Htail as [-> | ->]; [by intros ?%elem_of_nil|].
  intros [H|[]%elem_of_nil]%elem_of_cons. revert H. differs_within 1.
Qed.

(** C10. The server counts every entry of [data/] that matches [*.json],
    [manifest.json] included: after a run of [generate_manifest] the
    directory holds [manifest.json], so the server's list is one longer
    than [total_files] and is never empty, and the advisory warning about
    zero files is not printed, not even when [files] is empty. *)
Theorem start_server_counts_manifest json_dump w0 m w1 w :
  generate_manifest json_dump w0 = (Returned m, w1) →
  wf_path (data w0) →
  data w = data w1 → stdout w = [] →
  let json_files := glob "*.json" (data w) in
  let out := stdout (start_server w).2 in
  "manifest.json" ∈ json_files.*1 ∧
  length json_files = S (total_files m) ∧
  ("⚠️  Warning: No JSON files found in data/ directory" ∉ out) ∧
  (index_html w = true →
     ("✅ Found " +:+ pretty (length json_files) +:+ " JSON files:") ∈ out ∧
     "   - manifest.json" ∈ out).
Proof.
  intros Hg Hwf Hdata Hout.
  apply generate_manifest_Returned
    in Hg as (Hf & Ht & _ & _ & _ & _ & _ & d' & Hd' & Hin & Hnames & Hnd).
  specialize (Hnd Hwf). rewrite <- Hdata in Hd'. clear Hdata w1.
  cbv zeta. rewrite Hd'.
  pose proof (glob_json_manifest d' Hin) as Hglob.
  assert (length (glob "*.json" (IsDir d')) = S (total_files m)) as Hlen.
  { rewrite Ht, Hf, merge_sort_Permutation, qualifying_names.
    rewrite <- (length_fmap fst (glob "*.json" (IsDir d'))).
    pose proof Hglob as Hglob'. rewrite glob_names in Hglob' |- *.
    rewrite (NoDup_length_filter_ne "manifest.json" _
               (NoDup_filter _ _ Hnd) Hglob').
    f_equal. f_equal.
    rewrite (filter_filter_comm (λ n, n ≠ "manifest.json")), Hnames.
    rewrite <- (filter_filter_comm (λ n, n ≠ "manifest.json")).
    destruct (data w0) as [| |d0]; try reflexivity.
    by rewrite glob_names. }
  split; [exact Hglob|]. split; [exact Hlen|].
  destruct (glob "*.json" (IsDir d')) as [|e es] eqn:Eg;
    [by apply elem_of_nil in Hglob|].
  destruct (index_html w) eqn:Hidx.
  - rewrite (start_server_with_data w d' Hidx Hd'), Hd', Eg, Hout.
    cbn [snd stdout app]. split.
    + rewrite elem_of_app. intros [H|H].
      * by apply warning_not_in_listing in H.
      * destruct (port_in_use w); [by apply elem_of_nil in H|].
        revert H. apply warning_not_in_banner. destruct (ctrl_c w); auto.
    + intros _. split.
      * apply elem_of_app. left. left.
      * apply elem_of_app. left. right.
        apply list_elem_of_fmap in Hglob as ([n x] & -> & Hex).
        apply list_elem_of_fmap. by exists (n, x).
  - rewrite (start_server_no_index w Hidx), add_stdouts_eq, Hout.
    cbn [snd stdout app]. split; [|discriminate].
    rewrite !elem_of_cons, elem_of_nil. intros [H|[H|[]]]; discriminate H.
Qed.

Lemma start_server_counts_manifest_witness :
  length (glob "*.json" (data Scenario.only_manifest)) =
  S (total_files Scenario.empty_manifest).
Proof.
  destruct (start_server_counts_manifest Scenario.json_dump Scenario.missing
              Scenario.empty_manifest
              (generate_manifest Scenario.json_dump Scenario.missing).2
              Scenario.only_manifest)
    as (_ & H & _).
  - vm_compute. reflexivity.
  - exact I.
  - vm_compute. reflexivity.
  - vm_compute. reflexivity.
  - exact H.
Defined.

(** ** The request handler *)

Lemma string_app_assoc (a b c : string) : (a +:+ b) +:+ c = a +:+ (b +:+ c).
Proof.
  induction a as [|x a IH]; [reflexivity|].
  change (String x ((a +:+ b) +:+ c) = String x (a +:+ (b +:+ c))).
  by rewrite IH.
Qed.

Lemma join_app (l1 l2 : list string) :
  Handler.join (l1 ++ l2) = Handler.join l1 +:+ Handler.join l2.
Proof.
  induction l1 as [|x l1 IH]; [reflexivity|].
  change (x +:+ Handler.join (l1 ++ l2) = (x +:+ Handler.join l1) +:+ Handler.join l2).
  by rewrite IH, string_app_assoc.
Qed.

Lemma send_header_fields keyword value h :
  Handler.request_version (Handler.send_header keyword value h)
    = Handler.request_version h ∧
  Handler.wfile (Handler.send_header keyword value h) = Handler.wfile h ∧
  Handler.headers_buffer (Handler.send_header keyword value h) =
    if decide (Handler.request_version h ≠ "HTTP/0.9")
    then Handler.headers_buffer h ++ [keyword +:+ ": " +:+ value +:+ CRLF]
    else Handler.headers_buffer h.
Proof.
  unfold Handler.send_header.
  destruct (decide (Handler.request_version h ≠ "HTTP/0.9"));
    repeat case_decide; done.
Qed.

(** One call of the override: under HTTP/0.9 nothing is written; otherwise
    one head goes out, made of the lines in the buffer, the three header
    lines, and the empty line that the base class adds. *)
Lemma end_headers_eq h :
  Handler.request_version (Handler.end_headers h) = Handler.request_version h ∧
  Handler.wfile (Handler.end_headers h) =
    if decide (Handler.request_version h ≠ "HTTP/0.9")
    then Handler.wfile h ++
         [Handler.Head (Handler.join (Handler.headers_buffer h) +:+
                        Handler.cors_lines +:+ CRLF)]
    else Handler.wfile h.
Proof.
  unfold Handler.end_headers. cbv zeta.
  set (h1 := Handler.send_header "Access-Control-Allow-Origin" "*" h).
  set (h2 := Handler.send_header "Access-Control-Allow-Methods" "GET, POST, OPTIONS" h1).
  set (h3 := Handler.send_header "Access-Control-Allow-Headers" "Content-Type" h2).
  destruct (send_header_fields "Access-Control-Allow-Origin" "*" h) as (Hv1 & Hw1 & Hb1).
  destruct (send_header_fields "Access-Control-Allow-Methods" "GET, POST, OPTIONS" h1)
    as (Hv2 & Hw2 & Hb2).
  destruct (send_header_fields "Access-Control-Allow-Headers" "Content-Type" h2)
    as (Hv3 & Hw3 & Hb3).
  fold h1 in Hv1, Hw1, Hb1. fold h2 in Hv2, Hw2, Hb2. fold h3 in Hv3, Hw3, Hb3.
  rewrite Hv1 in *. rewrite Hv2 in *.
  unfold Handler.base_end_headers. rewrite Hv3.
  destruct (decide (Handler.request_version h ≠ "HTTP/0.9")) as [Hv|Hv].
  - cbn [Handler.flush_headers Handler.buffer_append Handler.request_version
         Handler.wfile Handler.headers_buffer].
    split; [exact Hv3|]. rewrite Hw3, Hw2, Hw1, Hb3, Hb2, Hb1.
    f_equal. f_equal.
    rewrite <- !app_assoc, join_app. reflexivity.
  - split; [exact Hv3|]. by rewrite Hw3, Hw2, Hw1.
Qed.

Lemma step_fields h c :
  Handler.request_version (Handler.step h c) = Handler.request_version h ∧
  Handler.heads (Handler.wfile (Handler.step h c)) =
    Handler.heads (Handler.wfile h) ++
    if Handler.is_end_headers c then
      if decide (Handler.request_version h ≠ "HTTP/0.9")
      then [Handler.join (Handler.headers_buffer h) +:+ Handler.cors_lines +:+ CRLF]
      else []
    else [].
Proof.
  destruct c as [code message|keyword value| |bytes];
    cbn [Handler.step Handler.is_end_headers].
  - unfold Handler.send_response_only. rewrite app_nil_r. by case_decide.
  - destruct (send_header_fields keyword value h) as (-> & -> & _).
    by rewrite app_nil_r.
  - destruct (end_headers_eq h) as (-> & ->). split; [done|].
    case_decide; [|by rewrite app_nil_r].
    unfold Handler.heads. by rewrite omap_app.
  - split; [done|]. cbn [Handler.wfile_write Handler.wfile].
    unfold Handler.heads. by rewrite omap_app.
Qed.

Lemma run_heads cs h :
  Handler.request_version (Handler.run cs h) = Handler.request_version h ∧
  ∃ new,
    Handler.heads (Handler.wfile (Handler.run cs h)) =
      Handler.heads (Handler.wfile h) ++ new ∧
    Forall (λ b, ∃ pre, b = pre +:+ Handler.cors_lines +:+ CRLF) new ∧
    length new =
      if decide (Handler.request_version h ≠ "HTTP/0.9")
      then length (filter (λ c, Handler.is_end_headers c) cs) else 0.
Proof.
  revert h. induction cs as [|c cs IH]; intros h.
  - split; [done|]. exists []. rewrite app_nil_r. repeat split; [constructor|].
    by case_decide.
  - change (Handler.run (c :: cs) h) with (Handler.run cs (Handler.step h c)).
    destruct (IH (Handler.step h c)) as (Hv & new & Hheads & Hall & Hlen).
    destruct (step_fields h c) as (Hsv & Hsh).
    rewrite Hsv in *. split; [exact Hv|].
    rewrite Hheads, Hsh, <- app_assoc. eexists. split; [reflexivity|].
    rewrite length_app, Hlen.
    destruct (Handler.is_end_headers c) eqn:Ec.
    + rewrite filter_cons_True by (by rewrite Ec).
      destruct (decide (Handler.request_version h ≠ "HTTP/0.9")).
      * split; [|done]. apply Forall_app. split; [|done].
        apply Forall_singleton. eauto.
      * split; done.
    + rewrite filter_cons_False by (rewrite Ec; intros []). split; [done|].
      by case_decide.
Qed.

(** C6, as the code has it.  Every response head the handler sends
    carries the three cross-origin header lines with their fixed values,
    after the lines the base class has collected and right before the
    empty line with which the base class closes the head; for a request
    of any version other than HTTP/0.9 each call of [end_headers], for a
    served file as for an error, sends one head.  While the version of the
    request stands at HTTP/0.9 the base class sends no head at all, so
    that what it answers then carries no header. *)
Theorem end_headers_adds_cors cs h :
  Handler.wfile h = [] →
  let sent := Handler.heads (Handler.wfile (Handler.run cs h)) in
  (∀ b, b ∈ sent → ∃ pre, b = pre +:+ Handler.cors_lines +:+ CRLF) ∧
  (Handler.request_version h ≠ "HTTP/0.9" →
   length sent = length (filter (λ c, Handler.is_end_headers c) cs)) ∧
  (Handler.request_version h = "HTTP/0.9" → sent = []).
Proof.
  intros Hw. cbv zeta.
  destruct (run_heads cs h) as (_ & new & -> & Hall & Hlen).
  rewrite Hw. cbn [Handler.heads omap list_omap app]. split; [|split].
  - by apply Forall_forall.
  - intros Hv. by rewrite Hlen, decide_True.
  - intros Hv. rewrite decide_False in Hlen by (by intros H; apply H).
    by destruct new.
Qed.

(** C6, as the specification has it, fails: the answer to a request for a
    missing file whose version stands at HTTP/0.9 goes over the wire as a
    body alone, although [end_headers] has been called for it. *)
Lemma end_headers_adds_cors_counterexample :
  Handler.EndHeaders ∈ Handler.not_found ∧
  Handler.wfile (Handler.run Handler.not_found (Handler.fresh "HTTP/0.9")) =
    [Handler.Body "<!DOCTYPE HTML>"].
Proof.
  split; [|vm_compute; reflexivity].
  unfold Handler.not_found. do 6 right. left.
Qed.

Lemma end_headers_adds_cors_witness :
  length (Handler.heads
            (Handler.wfile (Handler.run Handler.not_found (Handler.fresh "HTTP/1.1")))) =
  length (filter (λ c, Handler.is_end_headers c) Handler.not_found).
Proof.
  destruct (end_headers_adds_cors Handler.not_found (Handler.fresh "HTTP/1.1"))
    as (_ & H & _).
  - reflexivity.
  - apply H. discriminate.
Defined.

Example not_found_sends_one_head :
  length (Handler.heads
            (Handler.wfile (Handler.run Handler.not_found (Handler.fresh "HTTP/1.1")))) = 1.
Proof. vm_compute. reflexivity. Qed.

Lemma lookup_replace_entry_ne name n x es :
  n ≠ name → lookup_entry n (replace_entry name x es) = lookup_entry n es.
Proof.
  intros Hn. induction es as [|[n0 y] es IH]; [reflexivity|]. simpl.
  destruct (decide (n0 = name)) as [->|Hne]; simpl.
  - by rewrite !decide_False.
  - destruct (decide (n0 = n)); [reflexivity|exact IH].
Qed.

Lemma lookup_entry_snoc_ne name n x es :
  n ≠ name → lookup_entry n (es ++ [(name, x)]) = lookup_entry n es.
Proof.
  intros Hn. induction es as [|[n0 y] es IH]; simpl.
  - by rewrite decide_False.
  - destruct (decide (n0 = n)); [reflexivity|exact IH].
Qed.

(** What a run of [generate_manifest] that returns has done to the file
    system and which system calls it has made. *)
Lemma generate_manifest_effects json_dump w m w' :
  generate_manifest json_dump w = (Returned m, w') →
  log w' = log w ++
    (match data w with Absent => [EvMkdir data_dir] | _ => [] end) ++
    [EvOpenWrite (joinpath data_dir "manifest.json")] ∧
  (∀ n, n ≠ "manifest.json" → lookup_data n (data w') = lookup_data n (data w)) ∧
  (∃ r, lookup_data "manifest.json" (data w') =
          Some (RegularFile r true (json_dump m))) ∧
  cwd_writable w' = cwd_writable w ∧ clock w' = clock w.
Proof.
  intros (w1 & w2 & Hmk & Eow & ->)%generate_manifest_inv.
  rewrite add_stdouts_eq. cbn [log data cwd_writable clock].
  revert Eow. generalize (json_dump m). intros text Eow.
  rewrite mkdir_exist_ok_eq in Hmk. rewrite open_write_eq in Eow. cbv zeta in Eow.
  destruct (data w) as [| |d] eqn:Ed; [destruct (cwd_writable w) eqn:Ecw|..];
    try discriminate; injection Hmk as <-.
  - cbn [data set_data add_log entries lookup_entry dir_writable] in Eow.
    injection Eow as <-.
    cbn [log data cwd_writable clock set_data add_log lookup_data entries app
         lookup_entry].
    split; [by rewrite <- app_assoc|]. split.
    + intros n Hn. by rewrite decide_False.
    + split; [|done]. exists true. by rewrite decide_True.
  - rewrite Ed in Eow.
    destruct (lookup_entry "manifest.json" (entries d)) as [[r [] old|]|] eqn:El;
      try discriminate.
    + injection Eow as <-.
      cbn [log data cwd_writable clock set_data add_log lookup_data entries app].
      split; [done|]. split.
      * intros n Hn. by apply lookup_replace_entry_ne.
      * split; [|done]. exists r. apply lookup_replace_entry. by rewrite El.
    + destruct (dir_writable d) eqn:Ew; try discriminate.
      injection Eow as <-.
      cbn [log data cwd_writable clock set_data add_log lookup_data entries app].
      split; [done|]. split.
      * intros n Hn. by apply lookup_entry_snoc_ne.
      * split; [|done]. exists true. by apply lookup_entry_snoc.
Qed.

Lemma qualifying_names_of_entry_names p :
  (qualifying p).*1 =
  filter (λ n, fnmatchcase "*.json" n)
    (filter (λ n, n ≠ "manifest.json") (entry_names p)).
Proof.
  rewrite qualifying_names. destruct p as [| |d]; try reflexivity.
  rewrite glob_names. apply filter_filter_comm.
Qed.

(** X1. A run of [generate_manifest] that returns has replaced the whole
    text of [data/manifest.json] by the document of the manifest it built,
    and has left every other entry of [data/] as it was. *)
Theorem generate_manifest_overwrites_only_manifest json_dump w m w' :
  generate_manifest json_dump w = (Returned m, w') →
  read_data_file "manifest.json" w' = Some (json_dump m) ∧
  generated_at m = clock w ∧
  (∀ n, n ≠ "manifest.json" → lookup_data n (data w') = lookup_data n (data w)).
Proof.
  intros Hg.
  destruct (generate_manifest_effects _ _ _ _ Hg) as (_ & Hothers & _).
  apply generate_manifest_Returned in Hg as (_ & _ & Hat & _ & Hread & _).
  done.
Qed.

Lemma generate_manifest_overwrites_only_manifest_witness :
  read_data_file "manifest.json"
    (generate_manifest Scenario.json_dump Scenario.fixed).2 =
  Some (Scenario.json_dump Scenario.expected).
Proof.
  destruct (generate_manifest_overwrites_only_manifest Scenario.json_dump
              Scenario.fixed Scenario.expected
              (generate_manifest Scenario.json_dump Scenario.fixed).2
              scenario_fixed_run) as (H & _).
  exact H.
Defined.

(** X2. The only system calls of a run of [generate_manifest] that returns
    are [mkdir data], made when [data/] was missing and only then, followed
    by one open for writing, of [data/manifest.json]. *)
Theorem generate_manifest_system_calls json_dump w m w' :
  generate_manifest json_dump w = (Returned m, w') →
  log w' = log w ++
    (match data w with Absent => [EvMkdir "data"] | _ => [] end) ++
    [EvOpenWrite "data/manifest.json"].
Proof. by intros (Hlog & _)%generate_manifest_effects. Qed.

Lemma generate_manifest_system_calls_witness :
  log (generate_manifest Scenario.json_dump Scenario.fixed).2 =
  log Scenario.fixed ++
    (match data Scenario.fixed with Absent => [EvMkdir "data"] | _ => [] end) ++
    [EvOpenWrite "data/manifest.json"].
Proof.
  exact (generate_manifest_system_calls Scenario.json_dump Scenario.fixed
           Scenario.expected
           (generate_manifest Scenario.json_dump Scenario.fixed).2
           scenario_fixed_run).
Defined.

(** X3. Regenerating is stable: after a run of [generate_manifest] that
    returned, a further run over the directory it left returns as well, and
    its manifest has the same [files] and [total_files]: the manifest that
    the first run wrote is not counted. *)
Theorem generate_manifest_twice json_dump w m w1 w2 :
  generate_manifest json_dump w = (Returned m, w1) →
  data w2 = data w1 →
  ∃ m2 w3,
    generate_manifest json_dump w2 = (Returned m2, w3) ∧
    files m2 = files m ∧ total_files m2 = total_files m.
Proof.
  intros Hg Hdata.
  destruct (generate_manifest_effects _ _ _ _ Hg) as (_ & _ & (r & Hman) & _).
  pose proof (generate_manifest_valid_names _ _ _ _ Hg) as Hvalid.
  apply generate_manifest_Returned
    in Hg as (Hf & Ht & _ & _ & _ & _ & _ & d1 & Hd1 & _ & Hnames & _).
  rewrite <- Hdata in Hd1, Hman. clear Hdata w1.
  assert (merge_sort String.le (qualifying (data w2)).*1 = files m) as Hsame.
  { rewrite Hf, !qualifying_names_of_entry_names, Hd1.
    cbn [entry_names]. by rewrite Hnames. }
  destruct (generate_manifest_succeeds json_dump w2) as (m2 & w3 & Hg2).
  { unfold can_write_manifest. rewrite Hd1 in Hman |- *.
    cbn [lookup_data] in Hman. by rewrite Hman. }
  { by rewrite Hsame. }
  exists m2, w3. split; [exact Hg2|].
  apply generate_manifest_Returned in Hg2 as (Hf2 & Ht2 & _).
  assert (files m2 = files m) as Heq by (by rewrite Hf2).
  split; [exact Heq|]. by rewrite Ht2, Ht, Heq.
Qed.

Lemma generate_manifest_twice_witness :
  ∃ m2 w3,
    generate_manifest Scenario.json_dump
      (generate_manifest Scenario.json_dump Scenario.fixed).2 = (Returned m2, w3) ∧
    files m2 = files Scenario.expected ∧
    total_files m2 = total_files Scenario.expected.
Proof.
  exact (generate_manifest_twice Scenario.json_dump Scenario.fixed
           Scenario.expected
           (generate_manifest Scenario.json_dump Scenario.fixed).2
           (generate_manifest Scenario.json_dump Scenario.fixed).2
           scenario_fixed_run eq_refl).
Defined.

(** X4. When the file system does not let it write ([data] is not a
    directory, [data/] is missing and cannot be made, or [manifest.json]
    is a directory or cannot be written), [generate_manifest] raises an
    [OSError] before it has printed or changed anything. *)
Theorem generate_manifest_write_failure json_dump w :
  can_write_manifest w = false →
  ∃ e, generate_manifest json_dump w = (Raised e, w) ∧
       isinstance e OSError = true ∧ isinstance e KeyboardInterrupt = false.
Proof. apply generate_manifest_cannot_write. Qed.

Lemma generate_manifest_write_failure_witness :
  ∃ e, generate_manifest Scenario.json_dump Scenario.data_is_file =
         (Raised e, Scenario.data_is_file) ∧
       isinstance e OSError = true ∧ isinstance e KeyboardInterrupt = false.
Proof.
  exact (generate_manifest_write_failure Scenario.json_dump
           Scenario.data_is_file eq_refl).
Defined.

Lemma generate_report_length fs here :
  length (generate_report fs here) = 6 + length fs.
Proof.
  unfold generate_report, enumerate_from_1.
  rewrite !length_app, length_fmap, length_zip, length_seq.
  destruct (decide (length fs = 0)); simpl; lia.
Qed.

Lemma generate_report_numbered fs here i f :
  fs !! i = Some f →
  generate_report fs here !! (4 + i) =
    Some ("   " +:+ fmt_2d (S i) +:+ ". " +:+ f).
Proof.
  intros Hi. unfold generate_report, enumerate_from_1.
  rewrite lookup_app_r by (simpl; lia).
  replace (4 + i - length [_; _; _; _]) with i by (simpl; lia).
  rewrite lookup_app_l.
  - rewrite list_lookup_fmap, lookup_zip_with, lookup_seq_lt
      by eauto using lookup_lt_Some.
    simpl. by rewrite Hi.
  - rewrite length_fmap, length_zip, length_seq.
    apply lookup_lt_Some in Hi. lia.
Qed.

Lemma generate_report_warning fs here :
  "⚠️  No JSON files found in data/ directory" ∈ generate_report fs here ↔ fs = [].
Proof.
  unfold generate_report. split.
  - destruct fs as [|f fs]; [done|]. intros Hin. exfalso. revert Hin.
    rewrite decide_False by done.
    rewrite !elem_of_app, !elem_of_cons, elem_of_nil, list_elem_of_fmap.
    intros [[H|[H|[H|[H|[]]]]]|[([n g] & H & _)|[H|[H|[]]]]]; revert H;
      differs_within 3.
  - intros ->. rewrite elem_of_app. right. apply elem_of_app. right. left.
Qed.

Lemma generate_report_created fs here :
  (LF +:+ "💾 Created: data/manifest.json") ∈ generate_report fs here ↔ fs ≠ [].
Proof.
  unfold generate_report. split.
  - intros Hin ->. revert Hin.
    rewrite decide_True by done.
    change (enumerate_from_1 (@nil string)) with (@nil (nat * string)).
    rewrite fmap_nil, !elem_of_app, !elem_of_cons, !elem_of_nil.
    intros [[H|[H|[H|[H|[]]]]]|[[]|[H|[H|[]]]]]; revert H; differs_within 1.
  - intros Hne. destruct fs as [|f fs]; [done|].
    rewrite decide_False by done.
    rewrite elem_of_app. right. apply elem_of_app. right. left.
Qed.

(** X5. What a run of [generate_manifest] that returns has printed: four
    heading lines, one numbered line per listed file in the order of
    [files] (numbers from 1, in a field of width two), and two closing
    lines.  The closing lines confirm the write when a file was found;
    when none was found they are the warning instead, although the
    manifest has been written all the same. *)
Theorem generate_manifest_report json_dump w m w' :
  generate_manifest json_dump w = (Returned m, w') →
  ∃ report,
    stdout w' = stdout w ++ report ∧
    length report = 6 + total_files m ∧
    (∀ i f, files m !! i = Some f →
       report !! (4 + i) = Some ("   " +:+ fmt_2d (S i) +:+ ". " +:+ f)) ∧
    ("⚠️  No JSON files found in data/ directory" ∈ report ↔ total_files m = 0) ∧
    ((LF +:+ "💾 Created: data/manifest.json") ∈ report ↔ total_files m ≠ 0) ∧
    read_data_file "manifest.json" w' = Some (json_dump m).
Proof.
  intros (_ & Ht & _ & _ & Hread & Hout & _)%generate_manifest_Returned.
  exists (generate_report (files m) (absolute w data_dir)).
  rewrite Ht. split; [exact Hout|].
  split; [apply generate_report_length|].
  split; [intros i f; apply generate_report_numbered|].
  rewrite generate_report_warning, generate_report_created.
  split; [|split; [|exact Hread]].
  - by destruct (files m).
  - by destruct (files m).
Qed.

Lemma generate_manifest_report_witness :
  ∃ report,
    stdout (generate_manifest Scenario.json_dump Scenario.fixed).2 =
      stdout Scenario.fixed ++ report ∧
    length report = 6 + total_files Scenario.expected.
Proof.
  destruct (generate_manifest_report Scenario.json_dump Scenario.fixed
              Scenario.expected
              (generate_manifest Scenario.json_dump Scenario.fixed).2
              scenario_fixed_run) as (report & H1 & H2 & _).
  exists report. split; [exact H1|exact H2].
Defined.

(** * Further properties of validation and the entry point *)

Lemma forallb_valid_sorted p :
  Forall (λ e, valid_utf8 e.1 = true) (qualifying p) →
  forallb valid_utf8 (merge_sort String.le (qualifying p).*1) = true.
Proof.
  intros Hall. apply forallb_forall. intros n Hn.
  apply list_elem_of_In in Hn. rewrite merge_sort_Permutation in Hn.
  apply list_elem_of_fmap in Hn as (e & -> & He).
  rewrite Forall_forall in Hall. by apply Hall.
Qed.

(** X6. What the entry point writes has been validated: when validation
    passes, the manifest can be written and the names of the qualifying
    files are UTF-8, every name in [files] of the manifest now in
    [data/manifest.json] is an entry of [data/] that is a readable regular
    file whose text parses.  ([generate_manifest] on its own also lists
    directories and unreadable files that match.) *)
Theorem main_manifest_lists_valid_files json_load json_dump w :
  Forall (λ e, loads json_load e.2 = true) (qualifying (data w)) →
  can_write_manifest w = true →
  Forall (λ e, valid_utf8 e.1 = true) (qualifying (data w)) →
  ∃ m,
    read_data_file "manifest.json" (main json_load json_dump w).2
      = Some (json_dump m) ∧
    ∀ f, f ∈ files m →
      ∃ wr text, lookup_data f (data w) ≠ None ∧
        (f, RegularFile true wr text) ∈ qualifying (data w) ∧
        json_load text = None.
Proof.
  intros Hall Hcw Hvalid.
  destruct (main_validation_passes json_load json_dump w Hall Hcw
              (forallb_valid_sorted _ Hvalid))
    as (m & w3 & -> & Hread & Hf).
  exists m. split; [exact Hread|].
  intros f. rewrite Hf, merge_sort_Permutation.
  intros ([n x] & -> & Hin)%list_elem_of_fmap.
  rewrite Forall_forall in Hall. specialize (Hall _ Hin).
  cbn [fst snd] in *. unfold loads in Hall.
  destruct x as [[] wr text|]; try discriminate.
  destruct (json_load text) eqn:El; try discriminate.
  exists wr, text. split; [|done].
  assert (n ∈ (qualifying (data w)).*1) as Hn
    by (apply list_elem_of_fmap; by exists (n, RegularFile true wr text)).
  apply qualifying_names_spec in Hn as (_ & _ & d & Hd & Hn).
  rewrite Hd. cbn [lookup_data]. intros Hnone.
  by apply lookup_entry_None in Hnone.
Qed.

Lemma main_manifest_lists_valid_files_witness :
  ∃ m,
    read_data_file "manifest.json"
      (main Scenario.json_load Scenario.json_dump Scenario.fixed).2
      = Some (Scenario.json_dump m) ∧
    ∀ f, f ∈ files m →
      ∃ wr text, lookup_data f (data Scenario.fixed) ≠ None ∧
        (f, RegularFile true wr text) ∈ qualifying (data Scenario.fixed) ∧
        Scenario.json_load text = None.
Proof.
  apply (main_manifest_lists_valid_files Scenario.json_load Scenario.json_dump
           Scenario.fixed).
  - apply (bool_decide_unpack _). vm_compute. exact I.
  - vm_compute. reflexivity.
  - apply (bool_decide_unpack _). vm_compute. exact I.
Defined.

Lemma qualifying_replace_manifest x dw dw' es :
  qualifying (IsDir (Dir dw (replace_entry "manifest.json" x es))) =
  qualifying (IsDir (Dir dw' es)).
Proof.
  unfold qualifying, glob. cbn [entries].
  induction es as [|[n y] es IH]; [reflexivity|]. cbn [replace_entry].
  destruct (decide (n = "manifest.json")) as [->|Hne].
  - rewrite !(filter_cons _ (_, _)). cbn [fst].
    destruct (decide (Is_true (fnmatchcase "*.json" "manifest.json"))); [|done].
    rewrite !filter_cons_False by (by intros H; apply H). done.
  - rewrite !(filter_cons _ (_, _)). cbn [fst].
    destruct (decide (Is_true (fnmatchcase "*.json" n))); [|exact IH].
    rewrite !filter_cons_True by done. by rewrite IH.
Qed.

(** X7. Validation does not look at [manifest.json]: whatever that entry
    of [data/] is replaced by (a malformed or unreadable file, a
    directory), validation returns the same result and prints the same
    report. *)
Theorem validate_json_files_ignores_manifest json_load w d x :
  data w = IsDir d →
  let w' := set_data
    (IsDir (Dir (dir_writable d) (replace_entry "manifest.json" x (entries d)))) w in
  (validate_json_files json_load w').1 = (validate_json_files json_load w).1 ∧
  stdout (validate_json_files json_load w').2 =
    stdout (validate_json_files json_load w).2.
Proof.
  intros Hd. cbv zeta. rewrite !validate_json_files_eq. cbv zeta.
  cbn [data set_data]. rewrite Hd.
  rewrite (qualifying_replace_manifest x _ (dir_writable d)).
  destruct d as [dw es]. cbn [dir_writable entries].
  destruct (omap _ _) as [|r rs]; [done|].
  rewrite !add_stdouts_eq. done.
Qed.

Lemma validate_json_files_ignores_manifest_witness :
  (validate_json_files Scenario.json_load
     (set_data (IsDir (Dir true
        (replace_entry "manifest.json" (RegularFile true true "{bad")
           [("trial_b.json", Scenario.trial "2");
            ("manifest.json", Scenario.stale);
            ("trial_a.json", Scenario.trial "1")]))) Scenario.fixed)).1 =
  (validate_json_files Scenario.json_load Scenario.fixed).1.
Proof.
  destruct (validate_json_files_ignores_manifest Scenario.json_load Scenario.fixed
              (Dir true
                 [("trial_b.json", Scenario.trial "2");
                  ("manifest.json", Scenario.stale);
                  ("trial_a.json", Scenario.trial "1")])
              (RegularFile true true "{bad") eq_refl) as [H _].
  exact H.
Defined.

(** X8. A write failure is not swallowed: when validation passes but the
    file system does not let [generate_manifest] write, the entry point
    ends with the [OSError] uncaught, so the exit status is 1; the last
    line printed announces the generation, and [data/] is unchanged. *)
Theorem main_write_failure json_load json_dump w :
  Forall (λ e, loads json_load e.2 = true) (qualifying (data w)) →
  can_write_manifest w = false →
  let r := main json_load json_dump w in
  (∃ e, r.1 = Raised e ∧ isinstance e OSError = true) ∧
  exit_status r.1 = Some 1 ∧
  stdout r.2 = stdout w ++
    ["🔍 Validating JSON files..."; "✅ All JSON files are valid";
     LF +:+ "📝 Generating manifest..."] ∧
  data r.2 = data w ∧ log r.2 = log w.
Proof.
  intros Hall Hcw. cbv zeta.
  set (w2 := add_stdout (LF +:+ "📝 Generating manifest...")
               (add_stdout "✅ All JSON files are valid"
                  (add_stdout "🔍 Validating JSON files..." w))).
  destruct (generate_manifest_cannot_write json_dump w2 Hcw) as (e & Hg & He & Hk).
  assert (main json_load json_dump w = (Raised e, w2)) as ->.
  { unfold main. rewrite bind_unfold, print_eq, bind_unfold, validate_json_files_eq.
    cbv zeta. change (data (add_stdout _ w)) with (data w).
    apply omap_failure_entry_nil in Hall. rewrite Hall.
    rewrite bind_unfold, print_eq, bind_unfold. fold w2. rewrite Hg. reflexivity. }
  cbn [fst snd exit_status]. rewrite Hk. split; [eauto|]. split; [done|].
  subst w2. cbn [stdout data log add_stdout]. by rewrite <- !app_assoc.
Qed.

Lemma main_write_failure_witness :
  exit_status (main Scenario.json_load Scenario.json_dump Scenario.data_is_file).1
  = Some 1.
Proof.
  destruct (main_write_failure Scenario.json_load Scenario.json_dump
              Scenario.data_is_file) as (_ & H & _).
  - constructor.
  - reflexivity.
  - exact H.
Defined.

(** * Further properties of the server *)

(** X9. With [index.html] and [data/] in place and the port free, the
    server binds the port and serves until it is interrupted: without an
    interrupt it never returns and the socket stays open; on an interrupt
    it prints the farewell as its last line, closes the socket and returns
    normally.  Whether a browser could be launched changes nothing but the
    launch itself. *)
Theorem start_server_serves_until_interrupted w d :
  index_html w = true → data w = IsDir d → port_in_use w = false →
  let r := start_server w in
  r.1 = (if ctrl_c w then Returned tt else RunsForever) ∧
  log r.2 = log w ++
    EvBind 8000 ::
    (if browser_available w then [EvBrowser "http://localhost:8000"] else []) ++
    (if ctrl_c w then [EvClose 8000] else []) ∧
  (ctrl_c w = true → last (stdout r.2) = Some (LF +:+ "👋 Server stopped!")) ∧
  (ctrl_c w = false → LF +:+ "👋 Server stopped!" ∉ drop (length (stdout w)) (stdout r.2)) ∧
  data r.2 = data w.
Proof.
  intros Hidx Hd Hport. cbv zeta.
  rewrite (start_server_with_data w d Hidx Hd), Hport.
  cbn [fst snd log stdout data]. split; [done|]. split; [done|].
  split; [|split; [|done]].
  - intros ->. rewrite !app_assoc. apply last_snoc.
  - intros ->. rewrite drop_app_length, app_nil_r.
    intros [H|H]%elem_of_app.
    + destruct (glob "*.json" (data w)) as [|e es]; cbn [server_listing] in H.
      * revert H. rewrite !elem_of_cons, elem_of_nil.
        intros [H|[H|[]]]; revert H; differs_within 1.
      * apply elem_of_cons in H as [H|H]; [revert H; differs_within 1|].
        apply list_elem_of_fmap in H as (f & H & _). revert H. differs_within 1.
    + revert H. unfold server_banner. rewrite !elem_of_cons, elem_of_nil.
      intros [H|[H|[H|[H|[]]]]]; revert H; differs_within 4.
Qed.

Lemma start_server_serves_until_interrupted_witness :
  (start_server Scenario.headless).1 = RunsForever ∧
  log (start_server Scenario.headless).2 = [EvBind 8000].
Proof.
  destruct (start_server_serves_until_interrupted Scenario.headless
              (Dir true [("trial_a.json", Scenario.trial "1")])
              eq_refl eq_refl eq_refl) as (H1 & H2 & _).
  split; [exact H1|exact H2].
Defined.

(** X10. When the port is taken, the server fails with the [OSError] of
    the bind after it has listed the data files: nothing is bound, the
    banner is not printed, no browser is launched, and the exit status is
    1. *)
Theorem start_server_port_in_use w d :
  index_html w = true → data w = IsDir d → port_in_use w = true →
  let r := start_server w in
  (∃ e, r.1 = Raised e ∧ isinstance e OSError = true) ∧
  exit_status r.1 = Some 1 ∧
  log r.2 = log w ∧
  stdout r.2 = stdout w ++ server_listing (glob "*.json" (data w)).
Proof.
  intros Hidx Hd Hport. cbv zeta.
  rewrite (start_server_with_data w d Hidx Hd), Hport.
  cbn [fst snd log stdout]. rewrite !app_nil_r.
  split; [eexists; split; [reflexivity|vm_compute; reflexivity]|].
  split; [vm_compute; reflexivity|done].
Qed.

Lemma start_server_port_in_use_witness :
  exit_status (start_server Scenario.port_taken).1 = Some 1 ∧
  log (start_server Scenario.port_taken).2 = log Scenario.port_taken.
Proof.
  destruct (start_server_port_in_use Scenario.port_taken
              (Dir true [("trial_a.json", Scenario.trial "1")])
              eq_refl eq_refl eq_refl) as (_ & H1 & H2 & _).
  split; [exact H1|exact H2].
Defined.

(** Once [mkdir] has returned, the server goes on as if started in the
    directory that [mkdir] left. *)
Lemma start_server_after_mkdir w w1 :
  index_html w = true → mkdir_exist_ok w = (Returned tt, w1) →
  start_server w = start_server w1.
Proof.
  intros Hidx Hmk.
  destruct (mkdir_exist_ok_Returned _ _ _ Hmk)
    as (_ & (d1 & Hd1) & _ & _ & _ & Hidx1 & _).
  rewrite Hidx in Hidx1.
  transitivity
    ((p ← gets data;
      match glob "*.json" p with
      | [] =>
          print "⚠️  Warning: No JSON files found in data/ directory";;
          print "Please add your JSON files to the data/ folder"
      | _ :: _ =>
          print ("✅ Found " +:+ pretty (length (glob "*.json" p)) +:+ " JSON files:");;
          for_each (glob "*.json" p) (λ f _, print ("   - " +:+ f.1)) tt
      end;;
      TCPServer_init PORT;;
      with_exit (server_close PORT)
        (print (LF +:+ "🚀 Clinical Trials Dashboard Server Started!");;
         here ← gets cwd;
         print ("📂 Serving files from: " +:+ here);;
         print ("🌐 Open your browser to: http://localhost:" +:+ pretty PORT);;
         print ("🔄 Press Ctrl+C to stop the server" +:+ LF);;
         try_except (webbrowser_open ("http://localhost:" +:+ pretty PORT))
           (λ _, Some (mret tt));;
         try_except serve_forever
           (λ e, if isinstance e KeyboardInterrupt
                 then Some (print (LF +:+ "👋 Server stopped!"))
                 else None))) w1).
  - unfold start_server. rewrite bind_unfold. unfold gets at 1. cbv beta iota.
    rewrite Hidx. cbn [negb]. rewrite bind_unfold, Hmk. reflexivity.
  - symmetry. unfold start_server. rewrite bind_unfold. unfold gets at 1.
    cbv beta iota. rewrite Hidx1. cbn [negb].
    rewrite bind_unfold, mkdir_exist_ok_eq, Hd1. reflexivity.
Qed.

(** X11. Started with [index.html] but without [data/], the server makes
    the directory before anything else, finds no JSON file in it and
    prints the advisory warning, and then goes on to bind the port. *)
Theorem start_server_makes_data_dir w :
  index_html w = true → data w = Absent → cwd_writable w = true →
  let r := start_server w in
  data r.2 = IsDir (Dir true []) ∧
  (∃ rest, log r.2 = log w ++ EvMkdir "data" :: rest ∧
           (port_in_use w = false → EvBind 8000 ∈ rest)) ∧
  (∃ rest, stdout r.2 = stdout w ++
     "⚠️  Warning: No JSON files found in data/ directory" ::
     "Please add your JSON files to the data/ folder" :: rest).
Proof.
  intros Hidx Hd Hcw. cbv zeta.
  set (w1 := set_data (IsDir (Dir true [])) (add_log (EvMkdir data_dir) w)).
  assert (mkdir_exist_ok w = (Returned tt, w1)) as Hmk
    by (by rewrite mkdir_exist_ok_eq, Hd, Hcw).
  rewrite (start_server_after_mkdir w w1 Hidx Hmk).
  rewrite (start_server_with_data w1 (Dir true []) Hidx eq_refl).
  subst w1.
  cbn [snd data log stdout set_data add_log port_in_use ctrl_c cwd
       browser_available glob server_listing entries].
  split; [done|]. split.
  - rewrite <- app_assoc. eexists. split; [reflexivity|].
    intros ->. left.
  - rewrite filter_nil. cbn [server_listing app]. eauto.
Qed.

Lemma start_server_makes_data_dir_witness :
  data (start_server Scenario.missing).2 = IsDir (Dir true []).
Proof.
  destruct (start_server_makes_data_dir Scenario.missing eq_refl eq_refl eq_refl)
    as (H & _).
  exact H.
Defined.

(** X12. When [data/] is missing and cannot be made, or a file named
    [data] is in the way, the server fails with the [OSError] of [mkdir]
    before it has printed anything or touched the network. *)
Theorem start_server_mkdir_failure w :
  index_html w = true →
  data w = NotADirectory ∨ (data w = Absent ∧ cwd_writable w = false) →
  ∃ e, start_server w = (Raised e, w) ∧ isinstance e OSError = true.
Proof.
  intros Hidx Hbad. unfold start_server.
  rewrite bind_unfold. unfold gets at 1. cbv beta iota. rewrite Hidx. cbn [negb].
  rewrite bind_unfold, mkdir_exist_ok_eq.
  destruct Hbad as [->|[-> ->]]; eexists; (split; [reflexivity|vm_compute; reflexivity]).
Qed.

Lemma start_server_mkdir_failure_witness :
  ∃ e, start_server Scenario.data_is_file = (Raised e, Scenario.data_is_file) ∧
       isinstance e OSError = true.
Proof.
  exact (start_server_mkdir_failure Scenario.data_is_file eq_refl (or_introl eq_refl)).
Defined.

(** X13. With [index.html] and [data/] in place, the advisory warning is
    printed exactly when no entry of [data/] matches [*.json]; otherwise
    the server prints the number of matching entries and one line for
    each, in the order of enumeration. *)
Theorem start_server_warns_iff_no_json w d :
  index_html w = true → data w = IsDir d → stdout w = [] →
  let json_files := glob "*.json" (data w) in
  let out := stdout (start_server w).2 in
  ("⚠️  Warning: No JSON files found in data/ directory" ∈ out ↔ json_files = []) ∧
  (json_files ≠ [] →
   take (S (length json_files)) out =
     ("✅ Found " +:+ pretty (length json_files) +:+ " JSON files:") ::
     ((λ f, "   - " +:+ f.1) <$> json_files)).
Proof.
  intros Hidx Hd Hout. cbv zeta.
  rewrite (start_server_with_data w d Hidx Hd), Hout. cbn [snd stdout app].
  destruct (glob "*.json" (data w)) as [|e es] eqn:Eg.
  - split; [|done]. split; [done|]. intros _. left.
  - split.
    + split; [|done]. intros [H|H]%elem_of_app; exfalso.
      * by apply warning_not_in_listing in H.
      * destruct (port_in_use w); [by apply elem_of_nil in H|].
        revert H. apply warning_not_in_banner. destruct (ctrl_c w); auto.
    + intros _. rewrite take_app_length'; [done|].
      cbn [server_listing length]. by rewrite length_fmap.
Qed.

Lemma start_server_warns_iff_no_json_witness :
  "⚠️  Warning: No JSON files found in data/ directory"
    ∈ stdout (start_server Scenario.headless).2 ↔
  glob "*.json" (data Scenario.headless) = [].
Proof.
  destruct (start_server_warns_iff_no_json Scenario.headless
              (Dir true [("trial_a.json", Scenario.trial "1")])
              eq_refl eq_refl eq_refl) as (H & _).
  exact H.
Defined.

(** * A further property of the request handler *)

Lemma send_header_protocol_version keyword value h :
  Handler.protocol_version (Handler.send_header keyword value h)
    = Handler.protocol_version h.
Proof.
  unfold Handler.send_header. repeat case_decide; reflexivity.
Qed.

Lemma run_send_headers (hs : list (string * string)) h :
  Handler.request_version h ≠ "HTTP/0.9" →
  let h' := Handler.run ((λ kv, Handler.SendHeader kv.1 kv.2) <$> hs) h in
  Handler.request_version h' = Handler.request_version h ∧
  Handler.wfile h' = Handler.wfile h ∧
  Handler.headers_buffer h' =
    Handler.headers_buffer h ++ ((λ kv, kv.1 +:+ ": " +:+ kv.2 +:+ CRLF) <$> hs).
Proof.
  cbv zeta. revert h. induction hs as [|[k v] hs IH]; intros h Hv.
  - by rewrite app_nil_r.
  - rewrite fmap_cons.
    change (Handler.run (?c :: ?cs) h) with (Handler.run cs (Handler.step h c)).
    cbn [Handler.step fst snd].
    destruct (send_header_fields k v h) as (Hv1 & Hw1 & Hb1).
    rewrite decide_True in Hb1 by done.
    destruct (IH (Handler.send_header k v h)) as (-> & -> & ->);
      [by rewrite Hv1|].
    rewrite Hv1, Hw1, Hb1, fmap_cons, <- app_assoc. done.
Qed.

(** X14. A whole response head: for a request of a version other than
    HTTP/0.9, the status line, then the header lines the base class sends,
    then [end_headers] put on the wire, as one write, the status line, those
    header lines in their order, the three cross-origin lines and the empty
    line, and nothing else; the header buffer is empty afterwards, so that
    no line is carried over into the next response. *)
Theorem response_head_on_the_wire h code message (hs : list (string * string)) :
  Handler.request_version h ≠ "HTTP/0.9" → Handler.headers_buffer h = [] →
  let h' := Handler.run
    (Handler.SendResponseOnly code message ::
     ((λ kv, Handler.SendHeader kv.1 kv.2) <$> hs) ++ [Handler.EndHeaders]) h in
  Handler.wfile h' = Handler.wfile h ++
    [Handler.Head
       ((Handler.protocol_version h +:+ " " +:+ pretty code +:+ " " +:+ message +:+ CRLF) +:+
        Handler.join ((λ kv, kv.1 +:+ ": " +:+ kv.2 +:+ CRLF) <$> hs) +:+
        Handler.cors_lines +:+ CRLF)] ∧
  Handler.headers_buffer h' = [] ∧
  Handler.request_version h' = Handler.request_version h.
Proof.
  intros Hv Hb. cbv zeta.
  change (Handler.run (?c :: ?cs) h) with (Handler.run cs (Handler.step h c)).
  unfold Handler.run. rewrite foldl_app. fold (Handler.run).
  cbn [foldl Handler.step].
  set (h1 := Handler.send_response_only code message h).
  assert (Handler.request_version h1 = Handler.request_version h ∧
          Handler.wfile h1 = Handler.wfile h ∧
          Handler.headers_buffer h1 =
            [Handler.protocol_version h +:+ " " +:+ pretty code +:+ " " +:+
             message +:+ CRLF]) as (Hv1 & Hw1 & Hb1).
  { subst h1. unfold Handler.send_response_only. rewrite decide_True by done.
    cbn [Handler.buffer_append Handler.request_version Handler.wfile
         Handler.headers_buffer]. by rewrite Hb. }
  destruct (run_send_headers hs h1) as (Hv2 & Hw2 & Hb2); [by rewrite Hv1|].
  fold (Handler.run ((λ kv, Handler.SendHeader kv.1 kv.2) <$> hs) h1).
  set (h2 := Handler.run _ h1) in *.
  destruct (end_headers_eq h2) as (Hv3 & Hw3).
  rewrite decide_True in Hw3 by (by rewrite Hv2, Hv1).
  rewrite Hw3, Hv3, Hw2, Hw1, Hb2, Hb1, Hv2, Hv1.
  split; [|split; [|done]].
  - do 2 f_equal. change ([?x] ++ ?l) with (x :: l).
    change (Handler.join (?x :: ?l)) with (x +:+ Handler.join l).
    by rewrite !string_app_assoc.
  - unfold Handler.end_headers. cbv zeta. unfold Handler.base_end_headers.
    rewrite !(proj1 (send_header_fields _ _ _)), Hv2, Hv1.
    by rewrite decide_True.
Qed.

Lemma response_head_on_the_wire_witness :
  Handler.headers_buffer
    (Handler.run
       (Handler.SendResponseOnly 200 "OK" ::
        ((λ kv, Handler.SendHeader kv.1 kv.2) <$> [("Content-Length", "2")]) ++
        [Handler.EndHeaders]) (Handler.fresh "HTTP/1.1")) = [].
Proof.
  destruct (response_head_on_the_wire (Handler.fresh "HTTP/1.1") 200 "OK"
              [("Content-Length", "2")]) as (_ & H & _).
  - discriminate.
  - reflexivity.
  - exact H.
Defined.

(** * A further property of validation *)

(** X15. What the report says about a bad file: each qualifying entry that
    cannot be read or parsed has its own line ["   - name: reason"] in the
    output of validation.  For text that is not well-formed JSON the
    reason is the message of the parser as it is; for everything else (a
    directory, a file without read permission, bytes that are not UTF-8,
    nesting beyond the recursion limit) it is the message of the exception
    after ["Error reading file: "]. *)
Theorem validate_json_files_report_line json_load w name x :
  (name, x) ∈ qualifying (data w) → loads json_load x = false →
  ∃ reason,
    ("   - " +:+ name +:+ ": " +:+ reason)
      ∈ stdout (validate_json_files json_load w).2 ∧
    match x with
    | RegularFile true _ text =>
        match json_load text with
        | Some (Malformed msg) => reason = msg
        | Some (Undecodable msg) | Some (TooDeep msg) =>
            reason = "Error reading file: " +:+ msg
        | None => False
        end
    | _ => ∃ why, reason = "Error reading file: " +:+ why
    end.
Proof.
  intros Hin Hbad.
  assert (∃ reason, failure_entry json_load (name, x) = Some (name, reason) ∧
    match x with
    | RegularFile true _ text =>
        match json_load text with
        | Some (Malformed msg) => reason = msg
        | Some (Undecodable msg) | Some (TooDeep msg) =>
            reason = "Error reading file: " +:+ msg
        | None => False
        end
    | _ => ∃ why, reason = "Error reading file: " +:+ why
    end) as (reason & Hentry & Hreason).
  { unfold failure_entry, loads in *. cbn [fst snd].
    destruct x as [[] wr text|]; [|eauto..].
    destruct (json_load text) as [[msg|msg|msg]|]; [eauto..|discriminate]. }
  exists reason. split; [|exact Hreason].
  rewrite validate_json_files_eq. cbv zeta.
  assert ((name, reason) ∈ omap (failure_entry json_load) (qualifying (data w)))
    as Hrec by (apply list_elem_of_omap; eauto).
  destruct (omap _ _) as [|r rs]; [by apply elem_of_nil in Hrec|].
  rewrite add_stdouts_eq. cbn [snd stdout]. apply elem_of_app. right.
  unfold failure_report. right.
  apply list_elem_of_fmap. by exists (name, reason).
Qed.

Lemma validate_json_files_report_line_witness :
  ∃ reason,
    ("   - " +:+ "trial_b.json" +:+ ": " +:+ reason)
      ∈ stdout (validate_json_files Scenario.json_load Scenario.broken).2 ∧
    reason =
      "Expecting property name enclosed in double quotes: line 1 column 2 (char 1)".
Proof.
  destruct (validate_json_files_report_line Scenario.json_load Scenario.broken
              "trial_b.json" (RegularFile true true "{bad"))
    as (reason & H1 & H2).
  - vm_compute. left.
  - vm_compute. reflexivity.
  - exists reason. split; [exact H1|exact H2].
Defined.
